(** * Kalliope snowboy trigger: [snowboydecoder.py]

    A shallow embedding of [kalliope/trigger/snowboy/snowboydecoder.py]:
    the [RingBuffer] that decouples the PortAudio callback from the polling
    loop, and the [HotwordDetector] thread (constructor, [open_audio],
    [run], [terminate], [pause], [unpause]).

    Conventions.
    - Python [bytes] are [list byte]; a [collections.deque(maxlen=n)] is the
      list of its items, oldest first, together with [n].
    - An argument that may be "a value or a list of values" (tested with
      [type(x) is not list]) is a [py_arg].
    - The external collaborators (the snowboy engine, PyAudio, the user's
      callbacks and interruption predicate, the other threads) are the
      fields of the class [Collaborators]; what the program does to them is
      recorded as a trace of [event]s.
    - The list objects that a call of the constructor shares with other
      calls (a list passed as [sensitivity], and the list [[]] that is the
      default of that parameter) live in a store; the constructor changes
      them in place, as [list.append] does.
    - The other threads get their turn once per round of the detection
      loop, before the loop tests [kill_received].
    - [logger] calls are not modelled. *)

From stdpp Require Import base list strings gmap.
From Stdlib Require Import ZArith Lia.
From Stdlib.Strings Require Import Byte Ascii.

Local Open Scope nat_scope.

Abbreviation bytes := (list byte).

(** The last [n] items of [l] (all of [l] when it is shorter). *)
Definition lastn {A} (n : nat) (l : list A) : list A := drop (length l - n) l.

(** ** [collections.deque(maxlen=...)] *)

(** [deque.append(x)]: the item is added on the right; a bounded deque that
    is then over its [maxlen] drops one item on the left. *)
Definition deque_append {A} (maxlen : nat) (d : list A) (x : A) : list A :=
  let d' := d ++ [x] in
  if maxlen <? length d' then drop 1 d' else d'.

(** [deque.extend(iterable)]: [append] for each item, left to right. *)
Definition deque_extend {A} (maxlen : nat) (d : list A) (data : list A) : list A :=
  foldl (deque_append maxlen) d data.

(** ** class RingBuffer *)

Module RingBuffer.

Record t := mk {
  maxlen : nat;        (* self._buf.maxlen *)
  _buf : bytes;        (* self._buf, oldest byte first *)
  paused : bool        (* self.paused *)
}.

(** [__init__(self, size = 4096)] *)
Definition new (size : nat) : t :=
  {| maxlen := size; _buf := []; paused := false |}.

(** [extend(self, data)] *)
Definition extend (rb : t) (data : bytes) : t :=
  if negb (paused rb)
  then {| maxlen := maxlen rb;
          _buf := deque_extend (maxlen rb) (_buf rb) data;
          paused := paused rb |}
  else rb.

(** [get(self)]: the returned bytes and the buffer afterwards. *)
Definition get (rb : t) : bytes * t :=
  let tmp := _buf rb in
  (tmp, {| maxlen := maxlen rb; _buf := []; paused := paused rb |}).

(** [pause(self)] *)
Definition pause (rb : t) : t :=
  {| maxlen := maxlen rb; _buf := _buf rb; paused := true |}.

(** [unpause(self)] *)
Definition unpause (rb : t) : t :=
  {| maxlen := maxlen rb; _buf := _buf rb; paused := false |}.

(** A run of [extend] calls, first chunk first. *)
Definition extends (rb : t) (chunks : list bytes) : t := foldl extend rb chunks.

(** The invariant of the class: the deque is never over its bound. *)
Definition wf (rb : t) : Prop := length (_buf rb) <= maxlen rb.

(** The four methods as data, and a run of method calls on one buffer
    (what [get] returns is dropped). *)
Inductive op :=
| Extend (data : bytes)
| Get
| Pause
| Unpause.

Definition apply (rb : t) (o : op) : t :=
  match o with
  | Extend data => extend rb data
  | Get => (get rb).2
  | Pause => pause rb
  | Unpause => unpause rb
  end.

Definition applies (rb : t) (ops : list op) : t := foldl apply rb ops.

End RingBuffer.

(** ** Python values shared by the detector *)

(** A parameter documented as "a value or a list of values": the code looks
    at [type(x) is not list] and wraps a non-list in a one-item list. *)
Inductive py_arg (A : Type) :=
| Scalar (a : A)
| PyList (l : list A).
Arguments Scalar {A} a.
Arguments PyList {A} l.

Definition as_list {A} (x : py_arg A) : list A :=
  match x with
  | Scalar a => [a]
  | PyList l => l
  end.

(** [l * n] on a Python list: [n] copies of [l], one after the other. *)
Definition list_mul {A} (l : list A) (n : nat) : list A := concat (replicate n l).

(** A callable is known by its name; [None] (of [option callback]) is
    Python's [None]. *)
Definition callback := nat.

(** The handle returned by [pyaudio.PyAudio().open]. *)
Definition stream := nat.

Inductive exn :=
| AssertionError
| SnowboyOpenAudioException
| IndexError
| TypeError.

(** The second component of what [audio_callback] returns. *)
Inductive pa_flag := paContinue.

(** What the other threads do to a detector: PortAudio delivers a frame to
    [audio_callback]; the owner calls [pause], [unpause] or [terminate]. *)
Inductive call :=
| AudioCallback (in_data : bytes)
| CallPause
| CallUnpause
| CallTerminate.

(** ** The collaborators

    [World] is everything outside the detector object.  Every call that
    leaves the module reads it and may change it. *)
Class Collaborators := {
  World : Type;
  (** Python floats: the program only stores, counts and prints them. *)
  float : Type;
  half : float;                                    (* the literal 0.5 *)
  str : float -> string;                           (* str(t) *)
  (** snowboydetect.SnowboyDetect(resource_filename, model_str) *)
  NumHotwords : string -> string -> nat;
  NumChannels : nat;
  SampleRate : nat;
  RunDetection : bytes -> World -> Z * World;
  (** self.audio.open(...): [None] stands for an [IOError] *)
  audio_open : World -> option stream * World;
  (** callback() for a callable of the user *)
  invoke : callback -> World -> World;
  (** the calls made by the other threads since the loop last looked *)
  schedule : World -> list call * World
}.

(** ** Traces *)

Inductive event `{Collaborators} :=
| SnowboyDetect (resource_filename model_str : string)
| SetAudioGain (audio_gain : float)
| ApplyFrontend (apply_frontend : bool)
| SetSensitivity (sensitivity_str : string)
| PyAudio
| AudioOpen (result : option stream)               (* self.audio.open(...) *)
| Sleep (seconds : nat)                            (* time.sleep(i) *)
| SleepTime                                        (* time.sleep(self.sleep_time) *)
| InterruptCheck (result : bool)                   (* self.interrupt_check() *)
| RingBufferGet (data : bytes)                     (* self.ring_buffer.get() *)
| Detection (data : bytes) (ans : Z)               (* self.detector.RunDetection(data) *)
| Callback (c : callback)                          (* callback() *)
| StopStream
| CloseStream
| AudioTerminate.

(** ** A monad for state, trace and exceptions

    A computation over a state [S] yields the events it performed and how
    it ended: with a value, with an exception, or still running when the
    fuel given to a loop ran out. *)
Inductive outcome (S A : Type) :=
| Return (a : A) (s : S)
| Raise (e : exn) (s : S)
| Timeout (s : S).
Arguments Return {S A} a s.
Arguments Raise {S A} e s.
Arguments Timeout {S A} s.

Definition final_state {S A} (o : outcome S A) : S :=
  match o with
  | Return _ s => s
  | Raise _ s => s
  | Timeout s => s
  end.

Definition M `{Collaborators} (S A : Type) : Type := S -> list event * outcome S A.

Section Monad.
Context `{Collaborators} {S : Type}.

#[export] Instance M_ret : MRet (M S) := fun A a s => ([], Return a s).

#[export] Instance M_bind : MBind (M S) := fun A B k m s =>
  match m s with
  | (t, Return a s') => let '(t', o) := k a s' in (t ++ t', o)
  | (t, Raise e s') => (t, Raise e s')
  | (t, Timeout s') => (t, Timeout s')
  end.

Definition emit (e : event) : M S unit := fun s => ([e], Return tt s).
Definition raise {A} (e : exn) : M S A := fun s => ([], Raise e s).
Definition timeout {A} : M S A := fun s => ([], Timeout s).
Definition get_state : M S S := fun s => ([], Return s s).
Definition modify (f : S -> S) : M S unit := fun s => ([], Return tt (f s)).

(** [assert cond] *)
Definition assert_ (cond : bool) : M S unit :=
  if cond then mret tt else raise AssertionError.

Definition when (cond : bool) (m : M S unit) : M S unit :=
  if cond then m else mret tt.
End Monad.

Definition trace_of `{Collaborators} {S A} (r : list event * outcome S A) : list event := r.1.
Definition outcome_of `{Collaborators} {S A} (r : list event * outcome S A) : outcome S A := r.2.

(** ** class HotwordDetector *)

Record HotwordDetector `{Collaborators} := {
  detected_callback : py_arg (option callback);
  interrupt_check : World -> bool * World;
  kill_received : bool;
  paused : bool;
  num_hotwords : nat;
  ring_buffer : RingBuffer.t;
  stream_in : stream
}.

Section Detector.
Context `{Collaborators}.

(** *** The constructor *)

(** **** The list objects of [sensitivity]

    A list object that outlives a call is a location of the store; a
    location that the store does not mention holds the empty list.  The
    parameter [sensitivity=[]] has its default made once, by the [def]
    line: the one object [default_sensitivity], which every call that
    leaves [sensitivity] out works on. *)
Definition loc := nat.

Definition default_sensitivity : loc := 0.

(** What a caller passes as [sensitivity]: something that is not a list,
    or a list object ([ListObject default_sensitivity] when the argument
    is left out). *)
Inductive sensitivity_arg :=
| NotAList (x : float)
| ListObject (r : loc).

Definition omitted : sensitivity_arg := ListObject default_sensitivity.

(** The state of a constructor call: the world and the list objects. *)
Definition Py : Type := World * gmap loc (list float).

(** The local variable [sensitivity]: a list that nobody else holds (made
    by [[sensitivity]] or by [sensitivity * n]), or a shared list object. *)
Inductive list_var :=
| Own (l : list float)
| Shared (r : loc).

Definition read (v : list_var) (h : gmap loc (list float)) : list float :=
  match v with
  | Own l => l
  | Shared r => h !!! r
  end.

(** [v.append(x)]: in place. *)
Definition append (v : list_var) (x : float) (h : gmap loc (list float))
    : list_var * gmap loc (list float) :=
  match v with
  | Own l => (Own (l ++ [x]), h)
  | Shared r => (Shared r, <[r := h !!! r ++ [x]]> h)
  end.

Definition read_list (v : list_var) : M Py (list float) :=
  fun s => ([], Return (read v s.2) s).

Definition append_list (v : list_var) (x : float) : M Py list_var :=
  fun s => ([], Return (append v x s.2).1 (s.1, (append v x s.2).2)).

(** Lines 83-84: [if ts is not list: sensitivity = [sensitivity]]. *)
Definition arg_var (sensitivity : sensitivity_arg) : list_var :=
  match sensitivity with
  | NotAList x => Own [x]
  | ListObject r => Shared r
  end.

(** Lines 98-103: [sensitivity.append(0.5)] until the length is
    [num_hotwords]; the test comes after the append. *)
Fixpoint pad_loop (fuel nh : nat) (sensitivity : list_var) : M Py list_var :=
  match fuel with
  | 0 => timeout
  | Datatypes.S fuel =>
      sensitivity ← append_list sensitivity half;
      l ← read_list sensitivity;
      if length l =? nh then (mret sensitivity : M Py list_var)
      else pad_loop fuel nh sensitivity
  end.

(** Lines 93-106: from the sensitivities given to the ones in effect (the
    list that line 108 joins).  The loop gets [nh] rounds, which is enough
    whenever it is reached (see [pad_loop_enough]). *)
Definition normalize_sensitivity (nh : nat) (decoder_model : list string)
    (sensitivity : list_var) : M Py (list float) :=
  l ← read_list sensitivity;
  when (nh <? length l) (assert_ (nh =? length l));;
  sensitivity ←
    (if negb (length l =? nh)
     then pad_loop nh nh sensitivity
     else (mret sensitivity : M Py list_var));
  l ← read_list sensitivity;
  mret (if (1 <? length decoder_model) && (length l =? 1)
        then list_mul l nh
        else l).

(** [open_audio(self, audio_callback, i=0)].  The stream that the method
    stores in [self.stream_in] is returned here. *)
Fixpoint open_audio (fuel : nat) (i : nat) : M World stream :=
  match fuel with
  | 0 => timeout
  | Datatypes.S fuel =>
      fun w =>
        let '(r, w') := audio_open w in
        (emit (AudioOpen r);;
         match r with
         | Some s => mret s
         | None =>
             if i =? 5 then raise SnowboyOpenAudioException
             else
               let i := i + 1 in
               emit (Sleep i);;
               open_audio fuel i
         end) w'
  end.

(** A computation on the world, run in a constructor call. *)
Definition lift_world {A} (m : M World A) : M Py A := fun s =>
  match m s.1 with
  | (t, Return a w') => (t, Return a (w', s.2))
  | (t, Raise e w') => (t, Raise e (w', s.2))
  | (t, Timeout w') => (t, Timeout (w', s.2))
  end.

(** [__init__].  [str.encode()] is left out; [open_audio] is entered with
    [i = 0] and needs at most six rounds (see [open_audio_fuel]). *)
Definition __init__ (decoder_model : py_arg string) (resource : string)
    (sensitivity : sensitivity_arg) (audio_gain : float) (apply_frontend : bool)
    (detected_callback : py_arg (option callback))
    (interrupt_check : World -> bool * World) : M Py HotwordDetector :=
  let decoder_model := as_list decoder_model in
  let sensitivity := arg_var sensitivity in
  let model_str := String.concat "," decoder_model in
  emit (SnowboyDetect resource model_str);;
  emit (SetAudioGain audio_gain);;
  emit (ApplyFrontend apply_frontend);;
  let num_hotwords := NumHotwords resource model_str in
  sensitivity ← normalize_sensitivity num_hotwords decoder_model sensitivity;
  let sensitivity_str := String.concat "," (map str sensitivity) in
  when (negb (length sensitivity =? 0)) (emit (SetSensitivity sensitivity_str));;
  let ring_buffer := RingBuffer.new (NumChannels * SampleRate * 5) in
  emit PyAudio;;
  stream_in ← lift_world (open_audio 6 0);
  mret {| detected_callback := detected_callback;
          interrupt_check := interrupt_check;
          kill_received := false;
          paused := false;
          num_hotwords := num_hotwords;
          ring_buffer := ring_buffer;
          stream_in := stream_in |}.

(** *** Methods: the state is the world and the object *)

Definition St : Type := World * HotwordDetector.

Definition get_self : M St HotwordDetector := fun s => ([], Return s.2 s).

Definition with_detected_callback (self : HotwordDetector)
    (v : py_arg (option callback)) : HotwordDetector :=
  {| detected_callback := v;
     interrupt_check := interrupt_check self;
     kill_received := kill_received self;
     paused := paused self;
     num_hotwords := num_hotwords self;
     ring_buffer := ring_buffer self;
     stream_in := stream_in self |}.

Definition with_paused (self : HotwordDetector) (v : bool) : HotwordDetector :=
  {| detected_callback := detected_callback self;
     interrupt_check := interrupt_check self;
     kill_received := kill_received self;
     paused := v;
     num_hotwords := num_hotwords self;
     ring_buffer := ring_buffer self;
     stream_in := stream_in self |}.

Definition with_ring_buffer (self : HotwordDetector) (v : RingBuffer.t) : HotwordDetector :=
  {| detected_callback := detected_callback self;
     interrupt_check := interrupt_check self;
     kill_received := kill_received self;
     paused := paused self;
     num_hotwords := num_hotwords self;
     ring_buffer := v;
     stream_in := stream_in self |}.

Definition set_detected_callback (v : py_arg (option callback)) : M St unit :=
  modify (fun s => (s.1, with_detected_callback s.2 v)).

Definition set_paused (v : bool) : M St unit :=
  modify (fun s => (s.1, with_paused s.2 v)).

Definition set_ring_buffer (v : RingBuffer.t) : M St unit :=
  modify (fun s => (s.1, with_ring_buffer s.2 v)).

(** [self.interrupt_check()] *)
Definition call_interrupt_check : M St bool := fun '(w, self) =>
  let '(b, w') := interrupt_check self w in
  ([InterruptCheck b], Return b (w', self)).

(** [self.ring_buffer.get()] *)
Definition ring_buffer_get : M St bytes :=
  self ← get_self;
  let '(data, rb) := RingBuffer.get (ring_buffer self) in
  set_ring_buffer rb;;
  emit (RingBufferGet data);;
  mret data.

(** [self.detector.RunDetection(data)] *)
Definition run_detection (data : bytes) : M St Z := fun '(w, self) =>
  let '(ans, w') := RunDetection data w in
  ([Detection data ans], Return ans (w', self)).

(** [callback()] *)
Definition call_callback (c : callback) : M St unit := fun '(w, self) =>
  ([Callback c], Return tt (invoke c w, self)).

(** The closure [audio_callback] of the constructor, which PortAudio
    calls with each frame. *)
Definition audio_callback (in_data : bytes) : M St (list byte * pa_flag) :=
  self ← get_self;
  set_ring_buffer (RingBuffer.extend (ring_buffer self) in_data);;
  let play_data := replicate (length in_data) x00 in
  mret (play_data, paContinue).

(** [terminate(self)] *)
Definition terminate : M St unit :=
  emit StopStream;;
  emit CloseStream;;
  emit AudioTerminate.

(** [pause(self)] *)
Definition pause : M St unit :=
  set_paused true;;
  self ← get_self;
  set_ring_buffer (RingBuffer.pause (ring_buffer self)).

(** [unpause(self)] *)
Definition unpause : M St unit :=
  set_paused false;;
  self ← get_self;
  set_ring_buffer (RingBuffer.unpause (ring_buffer self)).

Definition do_call (c : call) : M St unit :=
  match c with
  | AudioCallback in_data => audio_callback in_data;; mret tt
  | CallPause => pause
  | CallUnpause => unpause
  | CallTerminate => terminate
  end.

Fixpoint do_calls (cs : list call) : M St unit :=
  match cs with
  | [] => mret tt
  | c :: cs => do_call c;; do_calls cs
  end.

(** The other threads run. *)
Definition others : M St unit := fun '(w, self) =>
  let '(cs, w') := schedule w in
  do_calls cs (w', self).

(** *** [run] *)

(** Lines 164-165: one callback for several hotwords is repeated. *)
Definition broadcast_callbacks (nh : nat) (cbs : list (option callback))
    : list (option callback) :=
  if (length cbs =? 1) && (1 <? nh) then list_mul cbs nh else cbs.

(** Lines 161-169: the callbacks become a list with one entry per
    hotword, or the assertion fails. *)
Definition normalize_callbacks : M St unit :=
  self ← get_self;
  let cbs := as_list (detected_callback self) in
  set_detected_callback (PyList cbs);;
  let cbs := broadcast_callbacks (num_hotwords self) cbs in
  set_detected_callback (PyList cbs);;
  assert_ (num_hotwords self =? length cbs).

Inductive ctl := Continue | Break.

(** Lines 174-194: the body of the [while] loop. *)
Definition loop_body : M St ctl :=
  self ← get_self;
  if negb (paused self) then
    ic ← call_interrupt_check;
    if ic : bool then (mret Break : M St ctl)
    else
      data ← ring_buffer_get;
      if length data =? 0 then
        emit SleepTime;;
        (mret Continue : M St ctl)
      else
        ans ← run_detection data;
        if (ans =? -1)%Z then (mret Continue : M St ctl)
        else if (ans >? 0)%Z then
          self ← get_self;
          match as_list (detected_callback self) !! Z.to_nat (ans - 1) with
          | None => raise IndexError
          | Some None => (mret Continue : M St ctl)
          | Some (Some c) => call_callback c;; (mret Continue : M St ctl)
          end
        else mret Continue
  else
    emit SleepTime;;
    (mret Continue : M St ctl).

(** Lines 173-194: [while not self.kill_received].  Before each test
    of the flag the other threads get their turn. *)
Fixpoint detect_loop (fuel : nat) : M St unit :=
  match fuel with
  | 0 => timeout
  | Datatypes.S fuel =>
      others;;
      self ← get_self;
      if negb (kill_received self) then
        c ← loop_body;
        match c with
        | Break => mret tt
        | Continue => detect_loop fuel
        end
      else mret tt
  end.

(** [run(self)] *)
Definition run (fuel : nat) : M St unit :=
  ic ← call_interrupt_check;
  if ic : bool then (mret tt : M St unit)
  else
    normalize_callbacks;;
    detect_loop fuel.

(** *** Vocabulary for the statements *)

(** The world after [k] calls of [self.audio.open], and what the call
    number [k] (from 0) returns. *)
Fixpoint world_after_opens (k : nat) (w : World) : World :=
  match k with
  | 0 => w
  | Datatypes.S k => world_after_opens k (audio_open w).2
  end.

Definition open_result (k : nat) (w : World) : option stream :=
  (audio_open (world_after_opens k w)).1.

(** The trace of failed attempts number [i], [i+1], ..., [i+n-1], each
    followed by its sleep. *)
Fixpoint failed_attempts (i n : nat) : list event :=
  match n with
  | 0 => []
  | Datatypes.S n => AudioOpen None :: Sleep (i + 1) :: failed_attempts (i + 1) n
  end.

(** The list that the constructor works on, as the call finds it. *)
Definition arg_list (sensitivity : sensitivity_arg) (h : gmap loc (list float))
    : list float :=
  read (arg_var sensitivity) h.

(** The store after the list object of [v] has become [l]. *)
Definition write (v : list_var) (l : list float) (h : gmap loc (list float))
    : gmap loc (list float) :=
  match v with
  | Own _ => h
  | Shared r => <[r := l]> h
  end.

(** The variable [v] after its list has become [l]. *)
Definition rebind (v : list_var) (l : list float) : list_var :=
  match v with
  | Own _ => Own l
  | Shared r => Shared r
  end.

(** The store after the constructor has filled up the list of [v], which
    held [l], for [nh] hotwords. *)
Definition padded_store (nh : nat) (v : list_var) (l : list float)
    (h : gmap loc (list float)) : gmap loc (list float) :=
  if length l =? nh then h
  else write v (l ++ replicate (nh - length l) half) h.

(** What the constructor does before it opens the stream, given the
    sensitivities in effect. *)
Definition init_prefix (resource model_str : string) (audio_gain : float)
    (apply_frontend : bool) (effective : list float) : list event :=
  [SnowboyDetect resource model_str; SetAudioGain audio_gain;
   ApplyFrontend apply_frontend]
  ++ (if length effective =? 0 then []
      else [SetSensitivity (String.concat "," (map str effective))])
  ++ [PyAudio].

Definition is_interrupt_check (e : event) : bool :=
  match e with InterruptCheck _ => true | _ => false end.

Definition is_drain (e : event) : bool :=
  match e with RingBufferGet _ => true | _ => false end.

Definition is_engine_call (e : event) : bool :=
  match e with Detection _ _ => true | _ => false end.

Definition count_events (p : event -> bool) (t : list event) : nat :=
  length (List.filter p t).



(** The two [paused] flags agree. *)
Definition in_sync (self : HotwordDetector) : Prop :=
  paused self = RingBuffer.paused (ring_buffer self).

(** An engine call in a trace got a block that is not empty. *)
Definition fed_data (e : event) : Prop :=
  match e with
  | Detection data _ => data <> []
  | _ => True
  end.

(** A callback call in a trace is a call of one of [cbs]. *)
Definition callback_from (cbs : list (option callback)) (e : event) : Prop :=
  match e with
  | Callback c => Some c ∈ cbs
  | _ => True
  end.

(** An event of the polling loop itself, not of another thread. *)
Definition is_loop_event (e : event) : bool :=
  match e with
  | InterruptCheck _ | RingBufferGet _ | Detection _ _ | Callback _ | SleepTime => true
  | _ => false
  end.

(** What the constructor fixed is the same in [self'] as in [self]. *)
Definition same_setup (self self' : HotwordDetector) : Prop :=
  detected_callback self' = detected_callback self
  /\ interrupt_check self' = interrupt_check self
  /\ kill_received self' = kill_received self
  /\ num_hotwords self' = num_hotwords self
  /\ stream_in self' = stream_in self
  /\ RingBuffer.maxlen (ring_buffer self') = RingBuffer.maxlen (ring_buffer self).

(** The two [paused] flags agree and the ring buffer is within its bound. *)
Definition detector_ok (self : HotwordDetector) : Prop :=
  in_sync self /\ RingBuffer.wf (ring_buffer self).

(** A trace of the loop: the engine only gets blocks that are not empty,
    only callbacks of [cbs] are called, there are no more engine calls than
    drains and no more drains than interruption checks. *)
Definition orderly (cbs : list (option callback)) (t : list event) : Prop :=
  Forall fed_data t
  /\ Forall (callback_from cbs) t
  /\ count_events is_engine_call t <= count_events is_drain t
  /\ count_events is_drain t <= count_events is_interrupt_check t.

End Detector.

(** ** A scripted environment

    A world that answers from lists: the results of the coming
    [audio.open] calls, of the coming [interrupt_check()] calls and of the
    coming [RunDetection] calls, and the calls of the other threads before
    each loop test.  An exhausted list answers with a stream, [False], [0]
    and no call. *)
Module Scripted.

Record script := {
  opens : list (option stream);
  interrupts : list bool;
  detections : list Z;
  turns : list (list call)
}.

Definition pop {A} (default : A) (l : list A) : A * list A :=
  match l with
  | [] => (default, [])
  | x :: l => (x, l)
  end.

Fixpoint count_commas (s : string) : nat :=
  match s with
  | EmptyString => 0
  | String c s => (if Ascii.eqb c ","%char then 1 else 0) + count_commas s
  end.

(** Floats are written as their [repr]; every model file holds one
    hotword. *)
Definition collaborators : Collaborators := {|
  World := script;
  float := string;
  half := "0.5";
  str := fun t => t;
  NumHotwords := fun _ model_str => 1 + count_commas model_str;
  NumChannels := 1;
  SampleRate := 16;
  RunDetection := fun _ w =>
    let '(ans, l) := pop 0%Z (detections w) in
    (ans, {| opens := opens w; interrupts := interrupts w;
             detections := l; turns := turns w |});
  audio_open := fun w =>
    let '(r, l) := pop (Some 0) (opens w) in
    (r, {| opens := l; interrupts := interrupts w;
           detections := detections w; turns := turns w |});
  invoke := fun _ w => w;
  schedule := fun w =>
    let '(cs, l) := pop [] (turns w) in
    (cs, {| opens := opens w; interrupts := interrupts w;
            detections := detections w; turns := l |})
|}.

#[local] Existing Instance collaborators.

Definition next_interrupt (w : script) : bool * script :=
  let '(b, l) := pop false (interrupts w) in
  (b, {| opens := opens w; interrupts := l;
         detections := detections w; turns := turns w |}).

Definition quiet : script :=
  {| opens := []; interrupts := []; detections := []; turns := [] |}.

(** A detector as the constructor leaves it, for [nh] hotwords. *)
Definition detector (nh : nat) (cbs : py_arg (option callback))
    : HotwordDetector :=
  {| detected_callback := cbs;
     interrupt_check := next_interrupt;
     kill_received := false;
     paused := false;
     num_hotwords := nh;
     ring_buffer := RingBuffer.new (1 * 16 * 5);
     stream_in := 0 |}.

(** A world in which the coming calls of [audio.open] answer [rs]. *)
Definition opening (rs : list (option stream)) : script :=
  {| opens := rs; interrupts := []; detections := []; turns := [] |}.

(** A world in which the coming calls of [interrupt_check()] answer [bs]
    and the coming calls of [RunDetection] answer [zs]. *)
Definition listening (bs : list bool) (zs : list Z) : script :=
  {| opens := []; interrupts := bs; detections := zs; turns := [] |}.

(** A detector whose owner has set [kill_received]. *)
Definition killed (nh : nat) (cbs : py_arg (option callback)) : HotwordDetector :=
  {| detected_callback := cbs;
     interrupt_check := next_interrupt;
     kill_received := true;
     paused := false;
     num_hotwords := nh;
     ring_buffer := RingBuffer.new (1 * 16 * 5);
     stream_in := 0 |}.

(** A detector with [data] in its ring buffer. *)
Definition loaded (nh : nat) (cbs : py_arg (option callback)) (data : bytes)
    : HotwordDetector :=
  with_ring_buffer (detector nh cbs)
    (RingBuffer.extend (ring_buffer (detector nh cbs)) data).

End Scripted.

(** * Properties of the ring buffer *)

Section Lastn.
Context {A : Type}.
Implicit Types (l d : list A) (x : A) (n : nat).

Lemma lastn_length n l : length (lastn n l) = Nat.min n (length l).
Proof. unfold lastn. rewrite length_drop. lia. Qed.

Lemma lastn_all n l : length l <= n -> lastn n l = l.
Proof. intros H. unfold lastn. replace (length l - n) with 0 by lia. done. Qed.

Lemma lastn_app_lastn n l1 l2 : lastn n (lastn n l1 ++ l2) = lastn n (l1 ++ l2).
Proof.
  destruct (decide (length l1 <= n)) as [Hle|Hgt].
  - by rewrite (lastn_all n l1).
  - unfold lastn. rewrite !length_app, !drop_app, !length_drop, drop_drop.
    f_equal; f_equal; lia.
Qed.

Lemma deque_append_lastn n d x :
  length d <= n -> deque_append n d x = lastn n (d ++ [x]).
Proof.
  intros H. unfold deque_append, lastn. rewrite length_app. simpl.
  destruct (Nat.ltb_spec n (length d + 1)).
  - replace (length d + 1 - n) with 1 by lia. done.
  - replace (length d + 1 - n) with 0 by lia. done.
Qed.

Lemma deque_append_length n d x :
  length d <= n -> length (deque_append n d x) <= n.
Proof.
  intros H. rewrite deque_append_lastn by done. rewrite lastn_length. lia.
Qed.

Lemma deque_extend_length n d data :
  length d <= n -> length (deque_extend n d data) <= n.
Proof.
  unfold deque_extend. revert d.
  induction data as [|x data IH]; intros d H; simpl; [done|].
  apply IH. by apply deque_append_length.
Qed.

Lemma deque_extend_lastn n d data :
  length d <= n -> deque_extend n d data = lastn n (d ++ data).
Proof.
  unfold deque_extend. revert d.
  induction data as [|x data IH]; intros d H; simpl.
  - rewrite app_nil_r. by rewrite lastn_all.
  - rewrite IH by (by apply deque_append_length).
    rewrite deque_append_lastn by done.
    rewrite lastn_app_lastn. by rewrite <- app_assoc.
Qed.

Lemma deque_extend_app n d data1 data2 :
  deque_extend n d (data1 ++ data2) = deque_extend n (deque_extend n d data1) data2.
Proof. unfold deque_extend. apply foldl_app. Qed.
End Lastn.

Module RingBufferFacts.
Import RingBuffer.

Lemma new_wf size : wf (new size).
Proof. unfold wf. simpl. lia. Qed.

Lemma extend_wf rb data : wf rb -> wf (extend rb data).
Proof.
  unfold wf, extend. destruct (paused rb); simpl; [done|].
  apply deque_extend_length.
Qed.

Lemma extends_wf rb chunks : wf rb -> wf (extends rb chunks).
Proof.
  unfold extends. revert rb.
  induction chunks as [|c chunks IH]; intros rb Hrb; simpl; [done|].
  apply IH. by apply extend_wf.
Qed.

Lemma extend_maxlen rb data : maxlen (extend rb data) = maxlen rb.
Proof. unfold extend. destruct (paused rb); reflexivity. Qed.

Lemma extend_paused rb data : paused (extend rb data) = paused rb.
Proof. unfold extend. destruct (paused rb) eqn:E; simpl; congruence. Qed.

Lemma extend_unpaused_buf rb data :
  paused rb = false -> wf rb ->
  _buf (extend rb data) = lastn (maxlen rb) (_buf rb ++ data).
Proof.
  intros Hp Hwf. unfold extend. rewrite Hp. simpl.
  by apply deque_extend_lastn.
Qed.

Lemma extend_paused_id rb data : paused rb = true -> extend rb data = rb.
Proof. intros Hp. unfold extend. by rewrite Hp. Qed.

Lemma extends_paused_id rb chunks : paused rb = true -> extends rb chunks = rb.
Proof.
  intros Hp. unfold extends.
  induction chunks as [|c chunks IH]; simpl; [done|].
  by rewrite extend_paused_id.
Qed.

Lemma extends_unpaused rb chunks :
  paused rb = false -> wf rb ->
  maxlen (extends rb chunks) = maxlen rb
  /\ paused (extends rb chunks) = false
  /\ _buf (extends rb chunks) = lastn (maxlen rb) (_buf rb ++ concat chunks).
Proof.
  unfold extends. revert rb.
  induction chunks as [|c chunks IH]; intros rb Hp Hwf; simpl.
  - rewrite app_nil_r. by rewrite lastn_all.
  - destruct (IH (extend rb c)) as (Hm & Hq & Hb).
    + by rewrite extend_paused.
    + by apply extend_wf.
    + rewrite Hm, Hq, Hb, extend_maxlen.
      rewrite extend_unpaused_buf by done.
      by rewrite lastn_app_lastn, <- app_assoc.
Qed.

(** C1.  Appends to a fresh, unpaused ring buffer of capacity [C > 0]
    that together carry more than [C] bytes: one [get] at the end returns
    exactly the last [C] bytes of everything appended, in order; the
    buffer holds at most [C] bytes after every call and after every byte
    within a call; [extend] always returns a buffer (it has no error
    case). *)
Theorem ring_buffer_keeps_most_recent (C : nat) (chunks : list bytes) :
  0 < C ->
  C < length (concat chunks) ->
  (get (extends (new C) chunks)).1 = lastn C (concat chunks)
  /\ length (get (extends (new C) chunks)).1 = C
  /\ (forall k, length (_buf (extends (new C) (take k chunks))) <= C)
  /\ (forall k j chunk,
        chunks !! k = Some chunk ->
        length (_buf (extend (extends (new C) (take k chunks)) (take j chunk))) <= C).
Proof.
  intros HC Hlen.
  destruct (extends_unpaused (new C) chunks eq_refl (new_wf C)) as (_ & _ & Hb).
  simpl in Hb. repeat split.
  - simpl. exact Hb.
  - simpl. rewrite Hb, lastn_length. lia.
  - intros k.
    pose proof (extends_wf (new C) (take k chunks) (new_wf C)) as Hwf.
    unfold wf in Hwf.
    destruct (extends_unpaused (new C) (take k chunks) eq_refl (new_wf C)) as (Hm & _ & _).
    rewrite Hm in Hwf. exact Hwf.
  - intros k j chunk _.
    pose proof (extend_wf _ (take j chunk) (extends_wf (new C) (take k chunks) (new_wf C))) as Hwf.
    unfold wf in Hwf. rewrite extend_maxlen in Hwf.
    destruct (extends_unpaused (new C) (take k chunks) eq_refl (new_wf C)) as (Hm & _ & _).
    rewrite Hm in Hwf. exact Hwf.
Qed.

Lemma ring_buffer_keeps_most_recent_witness :
  0 < 3 /\ 3 < length (concat [[x01; x02]; [x03; x04; x05]])
  /\ (get (extends (new 3) [[x01; x02]; [x03; x04; x05]])).1 = [x03; x04; x05].
Proof.
  split; [lia|]. split; [simpl; lia|].
  apply (ring_buffer_keeps_most_recent 3 [[x01; x02]; [x03; x04; x05]]); simpl; lia.
Defined.

(** C9.  A buffer is paused, any number of appends follow, and it is
    unpaused again: the paused appends leave the buffer as [pause] left
    it, so a [get] (while paused or right after [unpause]) returns
    exactly the bytes buffered before and none of the paused ones; an
    append after [unpause] is stored behind the old bytes, and the next
    [get] returns the old bytes followed by the new ones (all of them
    when they fit the capacity, their last [maxlen] bytes otherwise). *)
Theorem paused_appends_are_discarded (rb : t) (during : list bytes) (after : bytes) :
  wf rb ->
  extends (pause rb) during = pause rb
  /\ (get (extends (pause rb) during)).1 = _buf rb
  /\ (get (unpause (extends (pause rb) during))).1 = _buf rb
  /\ (get (extend (unpause (extends (pause rb) during)) after)).1
     = lastn (maxlen rb) (_buf rb ++ after)
  /\ (length (_buf rb) + length after <= maxlen rb ->
      (get (extend (unpause (extends (pause rb) during)) after)).1 = _buf rb ++ after)
  /\ (length after <= maxlen rb ->
      (get (extend (unpause (get (extends (pause rb) during)).2) after)).1 = after).
Proof.
  intros Hwf.
  assert (Hid : extends (pause rb) during = pause rb)
    by (apply extends_paused_id; reflexivity).
  rewrite Hid. repeat split.
  - change (_buf (extend (unpause (pause rb)) after)
            = lastn (maxlen rb) (_buf rb ++ after)).
    by rewrite extend_unpaused_buf.
  - intros Hfit.
    change (_buf (extend (unpause (pause rb)) after) = _buf rb ++ after).
    rewrite extend_unpaused_buf by done.
    apply lastn_all. rewrite length_app. simpl. lia.
  - intros Hfit.
    change (deque_extend (maxlen rb) [] after = after).
    rewrite deque_extend_lastn by (simpl; lia).
    by apply lastn_all.
Qed.

Lemma paused_appends_are_discarded_witness :
  wf (extend (new 4) [x01; x02])
  /\ (get (extends (pause (extend (new 4) [x01; x02])) [[x03]; [x04]])).1 = [x01; x02]
  /\ (get (extend (unpause (extends (pause (extend (new 4) [x01; x02])) [[x03]; [x04]])) [x05])).1
     = [x01; x02; x05].
Proof.
  assert (Hwf : wf (extend (new 4) [x01; x02])) by (unfold wf; simpl; lia).
  destruct (paused_appends_are_discarded (extend (new 4) [x01; x02]) [[x03]; [x04]] [x05] Hwf)
    as (_ & H2 & _ & _ & H5 & _).
  split; [exact Hwf|]. split; [exact H2|].
  apply H5. simpl. lia.
Defined.

End RingBufferFacts.

(** * Properties of the detector *)

(** Unfolds the monad in a goal so that the program can be run by [cbn]. *)
Ltac unfold_M :=
  unfold mbind, mret, M_bind, M_ret, emit, raise, timeout, get_state, modify,
    assert_, when in *.

Section DetectorFacts.
Context `{Collaborators}.
Implicit Types (w : World) (self : HotwordDetector) (s : St).

(** *** The padding loop *)

Lemma read_rebind (v : list_var) (l : list float) (h : gmap loc (list float)) :
  read (rebind v l) (write v l h) = l.
Proof. destruct v as [l0|r]; simpl; [done|]. apply lookup_total_insert_eq. Qed.

Lemma rebind_rebind (v : list_var) (l1 l2 : list float) :
  rebind (rebind v l1) l2 = rebind v l2.
Proof. by destruct v. Qed.

Lemma write_write (v : list_var) (l1 l2 : list float) (h : gmap loc (list float)) :
  write (rebind v l1) l2 (write v l1 h) = write v l2 h.
Proof. destruct v as [l0|r]; simpl; [done|]. apply insert_insert_eq. Qed.

Lemma append_spec (v : list_var) (x : float) (h : gmap loc (list float)) :
  append v x h = (rebind v (read v h ++ [x]), write v (read v h ++ [x]) h).
Proof. by destruct v. Qed.

Lemma pad_loop_enough (n : nat) : forall (fuel : nat) (v : list_var) w
    (h : gmap loc (list float)),
  0 < n -> n <= fuel ->
  pad_loop fuel (length (read v h) + n) v (w, h) =
    ([], Return (rebind v (read v h ++ replicate n half))
           (w, write v (read v h ++ replicate n half) h)).
Proof.
  induction n as [|n IH]; intros fuel v w h Hn Hfuel; [lia|].
  destruct fuel as [|fuel]; [lia|]. simpl.
  unfold mbind, M_bind, append_list, read_list. simpl.
  rewrite append_spec. simpl. rewrite read_rebind, length_app. simpl.
  destruct (Nat.eqb_spec (length (read v h) + 1) (length (read v h) + Datatypes.S n))
    as [E|E].
  - assert (n = 0) by lia. subst n. done.
  - specialize (IH fuel (rebind v (read v h ++ [half])) w
                  (write v (read v h ++ [half]) h)).
    rewrite read_rebind, length_app in IH. simpl in IH.
    replace (length (read v h) + Datatypes.S n) with (length (read v h) + 1 + n) by lia.
    rewrite IH by lia.
    rewrite rebind_rebind, write_write, <- app_assoc. done.
Qed.

(** Lines 93-106 in one equation: too many sensitivities fail the
    assertion; otherwise the list is filled up with [0.5], in place. *)
Lemma normalize_sensitivity_spec (nh : nat) (models : list string)
    (v : list_var) w (h : gmap loc (list float)) :
  normalize_sensitivity nh models v (w, h) =
    if nh <? length (read v h) then ([], Raise AssertionError (w, h))
    else ([], Return (read v h ++ replicate (nh - length (read v h)) half)
                (w, padded_store nh v (read v h) h)).
Proof.
  unfold normalize_sensitivity, padded_store.
  unfold mbind at 1. unfold M_bind at 1. unfold read_list at 1. simpl.
  set (l := read v h).
  destruct (Nat.ltb_spec nh (length l)) as [Hlt|Hle].
  - unfold_M. destruct (Nat.eqb_spec nh (length l)); [lia|]. done.
  - unfold mbind at 1. unfold M_bind at 1. unfold when at 1. unfold mret at 1.
    unfold M_ret at 1. simpl.
    destruct (Nat.eqb_spec (length l) nh) as [E|E]; simpl.
    + unfold_M. unfold read_list. simpl. fold l.
      replace (nh - length l) with 0 by lia. simpl. rewrite app_nil_r.
      destruct ((1 <? length models) && (length l =? 1)) eqn:Hb; [|done].
      apply andb_prop in Hb as [_ Hb]. apply Nat.eqb_eq in Hb.
      assert (Hn : nh = 1) by lia. rewrite Hn. unfold list_mul. simpl.
      by rewrite app_nil_r.
    + pose proof (pad_loop_enough (nh - length l) nh v w h) as Hp.
      fold l in Hp.
      replace (length l + (nh - length l)) with nh in Hp by lia.
      unfold mbind at 1. unfold M_bind at 1.
      rewrite Hp by lia.
      unfold_M. unfold read_list. simpl. rewrite read_rebind.
      set (l' := l ++ replicate (nh - length l) half).
      assert (Hl' : length l' = nh)
        by (unfold l'; rewrite length_app, length_replicate; lia).
      destruct ((1 <? length models) && (length l' =? 1)) eqn:Hb; [|done].
      apply andb_prop in Hb as [_ Hb]. apply Nat.eqb_eq in Hb.
      assert (Hn : nh = 1) by lia. rewrite Hn. unfold list_mul. simpl.
      by rewrite app_nil_r.
Qed.

(** *** Opening the audio stream *)

Lemma open_audio_step (fuel i : nat) w :
  open_audio (Datatypes.S fuel) i w =
    match audio_open w with
    | (Some st, w') => ([AudioOpen (Some st)], Return st w')
    | (None, w') =>
        if i =? 5 then ([AudioOpen None], Raise SnowboyOpenAudioException w')
        else
          let '(t, o) := open_audio fuel (i + 1) w' in
          (AudioOpen None :: Sleep (i + 1) :: t, o)
    end.
Proof.
  simpl. destruct (audio_open w) as [[st|] w']; unfold_M; simpl; [done|].
  destruct (i =? 5); [done|].
  by destruct (open_audio fuel (i + 1) w') as [t [a s|e s|s]].
Qed.

Lemma open_result_0 w : open_result 0 w = (audio_open w).1.
Proof. reflexivity. Qed.

Lemma open_result_S k w : open_result (Datatypes.S k) w = open_result k (audio_open w).2.
Proof. reflexivity. Qed.

(** [n] failures in a row, none of them at [i = 5]: [n] attempts and [n]
    sleeps, and the method goes on with [i + n]. *)
Lemma open_audio_failures (n : nat) : forall (i fuel : nat) w,
  i + n <= 5 ->
  (forall j, j < n -> open_result j w = None) ->
  open_audio (n + fuel) i w =
    let '(t, o) := open_audio fuel (i + n) (world_after_opens n w) in
    (failed_attempts i n ++ t, o).
Proof.
  induction n as [|n IH]; intros i fuel w Hi Hfail.
  - simpl. rewrite Nat.add_0_r. by destruct (open_audio fuel i w).
  - change (Datatypes.S n + fuel) with (Datatypes.S (n + fuel)).
    rewrite open_audio_step.
    pose proof (Hfail 0 ltac:(lia)) as H0. rewrite open_result_0 in H0.
    destruct (audio_open w) as [r w'] eqn:Eo. simpl in H0. subst r.
    destruct (Nat.eqb_spec i 5); [lia|].
    rewrite IH; [|lia|].
    + simpl. rewrite Eo. simpl.
      replace (i + 1 + n) with (i + Datatypes.S n) by lia.
      by destruct (open_audio fuel (i + Datatypes.S n) (world_after_opens n w')).
    + intros j Hj. specialize (Hfail (Datatypes.S j) ltac:(lia)).
      rewrite open_result_S, Eo in Hfail. exact Hfail.
Qed.

(** With [i <= 5] and [6 - i] rounds the method comes to an end: it
    returns the stream or raises [SnowboyOpenAudioException]. *)
Lemma open_audio_total (n : nat) : forall (i : nat) w,
  i + n = 6 -> i <= 5 ->
  exists t w',
    (exists st, open_audio n i w = (t, Return st w'))
    \/ open_audio n i w = (t, Raise SnowboyOpenAudioException w').
Proof.
  induction n as [|n IH]; intros i w Hn Hi; [lia|].
  rewrite open_audio_step.
  destruct (audio_open w) as [[st|] w']; [by eauto 6|].
  destruct (Nat.eqb_spec i 5) as [E|E]; [by eauto 6|].
  destruct (IH (i + 1) w') as (t & w'' & [[st Hr]|Hr]); [lia|lia|..];
    rewrite Hr; eauto 6.
Qed.

Lemma open_audio_fuel w :
  exists t w',
    (exists st, open_audio 6 0 w = (t, Return st w'))
    \/ open_audio 6 0 w = (t, Raise SnowboyOpenAudioException w').
Proof. apply open_audio_total; lia. Qed.

(** C4.  Opening the stream from [i = 0].  When all six attempts fail
    with an [IOError], the trace is: attempt, sleep 1, attempt, sleep 2,
    attempt, sleep 3, attempt, sleep 4, attempt, sleep 5, attempt; then
    [SnowboyOpenAudioException] is raised, after six calls of
    [audio.open] (the first one and five retries) and no more.  When the
    attempt number [k] is the first to succeed, the trace stops with it:
    [k] failed attempts with their sleeps, the successful call, and
    nothing after it. *)
Theorem open_audio_retry_policy (fuel : nat) w :
  6 <= fuel ->
  ((forall k, k < 6 -> open_result k w = None) ->
     open_audio fuel 0 w =
       ([AudioOpen None; Sleep 1; AudioOpen None; Sleep 2; AudioOpen None; Sleep 3;
         AudioOpen None; Sleep 4; AudioOpen None; Sleep 5; AudioOpen None],
        Raise SnowboyOpenAudioException (world_after_opens 6 w)))
  /\ (forall k st,
        k < 6 ->
        (forall j, j < k -> open_result j w = None) ->
        open_result k w = Some st ->
        open_audio fuel 0 w =
          (failed_attempts 0 k ++ [AudioOpen (Some st)],
           Return st (world_after_opens (Datatypes.S k) w))).
Proof.
  intros Hfuel. split.
  - intros Hfail.
    replace fuel with (5 + Datatypes.S (fuel - 6)) by lia.
    rewrite open_audio_failures; [|lia|intros j Hj; apply Hfail; lia].
    rewrite open_audio_step.
    pose proof (Hfail 5 ltac:(lia)) as H5. unfold open_result in H5.
    change (world_after_opens 6 w)
      with (world_after_opens 5 (audio_open w).2).
    assert (Hw : forall k v, world_after_opens k (audio_open v).2
                             = (audio_open (world_after_opens k v)).2).
    { clear. induction k as [|k IH]; intros v; simpl; [done|]. by rewrite IH. }
    rewrite Hw.
    destruct (audio_open (world_after_opens 5 w)) as [r w']. simpl in H5. subst r.
    reflexivity.
  - intros k st Hk Hfail Hok.
    replace fuel with (k + Datatypes.S (fuel - k - 1)) by lia.
    rewrite open_audio_failures; [|lia|done].
    rewrite open_audio_step. unfold open_result in Hok.
    assert (Hw : forall k v, world_after_opens k (audio_open v).2
                             = (audio_open (world_after_opens k v)).2).
    { clear. induction k as [|k' IH]; intros v; simpl; [done|]. by rewrite IH. }
    change (world_after_opens (Datatypes.S k) w)
      with (world_after_opens k (audio_open w).2).
    rewrite Hw.
    destruct (audio_open (world_after_opens k w)) as [r w']. simpl in Hok. subst r.
    reflexivity.
Qed.

(** *** The constructor *)

Lemma init_spec (decoder_model : py_arg string) (resource : string)
    (sensitivity : sensitivity_arg) (audio_gain : float) (apply_frontend : bool)
    (cbs : py_arg (option callback)) (ic : World -> bool * World) w
    (h : gmap loc (list float)) :
  let model_str := String.concat "," (as_list decoder_model) in
  let nh := NumHotwords resource model_str in
  let l := arg_list sensitivity h in
  let effective := l ++ replicate (nh - length l) half in
  __init__ decoder_model resource sensitivity audio_gain apply_frontend cbs ic (w, h) =
    if nh <? length l then
      ([SnowboyDetect resource model_str; SetAudioGain audio_gain;
        ApplyFrontend apply_frontend], Raise AssertionError (w, h))
    else
      let pre := init_prefix resource model_str audio_gain apply_frontend effective in
      let h' := padded_store nh (arg_var sensitivity) l h in
      match open_audio 6 0 w with
      | (t, Return st w') =>
          (pre ++ t,
           Return {| detected_callback := cbs;
                     interrupt_check := ic;
                     kill_received := false;
                     paused := false;
                     num_hotwords := nh;
                     ring_buffer := RingBuffer.new (NumChannels * SampleRate * 5);
                     stream_in := st |} (w', h'))
      | (t, Raise e w') => (pre ++ t, Raise e (w', h'))
      | (t, Timeout w') => (pre ++ t, Timeout (w', h'))
      end.
Proof.
  intros model_str nh l effective.
  unfold __init__, init_prefix, lift_world.
  fold model_str. fold nh.
  generalize (open_audio 6 0). intros oa.
  unfold mbind, M_bind, emit. simpl.
  rewrite normalize_sensitivity_spec. fold (arg_list sensitivity h). fold l.
  destruct (nh <? length l); [done|]. fold effective.
  destruct (length effective =? 0); simpl;
    destruct (oa w) as [t [st w'|e w'|w']]; simpl;
    unfold mret, M_ret; simpl; rewrite ?app_nil_r; done.
Qed.

(** *** [run]: entry *)

Lemma normalize_callbacks_spec w self :
  let cbs := broadcast_callbacks (num_hotwords self) (as_list (detected_callback self)) in
  let self' := with_detected_callback self (PyList cbs) in
  normalize_callbacks (w, self) =
    ([], if num_hotwords self =? length cbs
         then Return tt (w, self')
         else Raise AssertionError (w, self')).
Proof.
  intros cbs self'. unfold normalize_callbacks, get_self, set_detected_callback.
  unfold_M. simpl. fold cbs.
  by destruct (num_hotwords self =? length cbs).
Qed.

Lemma run_spec (fuel : nat) w self :
  let cbs := broadcast_callbacks (num_hotwords self) (as_list (detected_callback self)) in
  let self' := with_detected_callback self (PyList cbs) in
  run fuel (w, self) =
    let '(ic, w1) := interrupt_check self w in
    if ic then ([InterruptCheck true], Return tt (w1, self))
    else if num_hotwords self =? length cbs then
      let '(t, o) := detect_loop fuel (w1, self') in
      (InterruptCheck false :: t, o)
    else ([InterruptCheck false], Raise AssertionError (w1, self')).
Proof.
  intros cbs self'. unfold run, call_interrupt_check.
  unfold mbind at 1. unfold M_bind at 1.
  destruct (interrupt_check self w) as [[|] w1]; [done|].
  unfold mbind, M_bind.
  rewrite normalize_callbacks_spec. fold cbs. fold self'.
  destruct (num_hotwords self =? length cbs); [|done].
  simpl. by destruct (detect_loop fuel (w1, self')) as [t o].
Qed.

(** *** [run]: one round of the loop *)

(** What the loop does with the answer of the engine. *)
Lemma loop_body_spec w self :
  loop_body (w, self) =
    if paused self then ([SleepTime], Return Continue (w, self))
    else
      let '(ic, w1) := interrupt_check self w in
      if ic then ([InterruptCheck true], Return Break (w1, self))
      else
        let data := RingBuffer._buf (ring_buffer self) in
        let self1 := with_ring_buffer self (RingBuffer.get (ring_buffer self)).2 in
        if length data =? 0 then
          ([InterruptCheck false; RingBufferGet data; SleepTime],
           Return Continue (w1, self1))
        else
          let '(ans, w2) := RunDetection data w1 in
          let pre := [InterruptCheck false; RingBufferGet data; Detection data ans] in
          if (ans =? -1)%Z then (pre, Return Continue (w2, self1))
          else if (ans >? 0)%Z then
            match as_list (detected_callback self) !! Z.to_nat (ans - 1) with
            | None => (pre, Raise IndexError (w2, self1))
            | Some None => (pre, Return Continue (w2, self1))
            | Some (Some c) =>
                (pre ++ [Callback c], Return Continue (invoke c w2, self1))
            end
          else (pre, Return Continue (w2, self1)).
Proof.
  unfold loop_body, get_self, call_interrupt_check, ring_buffer_get, get_self,
    set_ring_buffer, run_detection, call_callback.
  unfold_M. simpl.
  destruct (paused self); simpl; [done|].
  destruct (interrupt_check self w) as [[|] w1]; simpl; [done|].
  destruct (length (RingBuffer._buf (ring_buffer self)) =? 0); simpl; [done|].
  destruct (RunDetection (RingBuffer._buf (ring_buffer self)) w1) as [ans w2]; simpl.
  destruct (ans =? -1)%Z; simpl; [done|].
  destruct (ans >? 0)%Z; simpl; [|done].
  destruct (as_list (detected_callback self) !! Z.to_nat (ans - 1)) as [[c|]|];
    simpl; done.
Qed.

(** *** The other threads, and the whole loop *)

Lemma do_call_spec (c : call) s :
  exists t s',
    do_call c s = (t, Return tt s')
    /\ kill_received s'.2 = kill_received s.2.
Proof.
  destruct s as [w self].
  destruct c; unfold do_call, audio_callback, pause, unpause, terminate,
    get_self, set_paused, set_ring_buffer; unfold_M; simpl; eauto.
Qed.

Lemma do_calls_spec (cs : list call) : forall s,
  exists t s',
    do_calls cs s = (t, Return tt s')
    /\ kill_received s'.2 = kill_received s.2.
Proof.
  induction cs as [|c cs IH]; intros s; simpl.
  - unfold_M. eauto.
  - destruct (do_call_spec c s) as (t1 & s1 & H1 & K1).
    destruct (IH s1) as (t2 & s2 & H2 & K2).
    exists (t1 ++ t2), s2. split; [|congruence].
    unfold mbind, M_bind. by rewrite H1, H2.
Qed.

Lemma others_spec s :
  exists t s',
    others s = (t, Return tt s')
    /\ kill_received s'.2 = kill_received s.2.
Proof.
  destruct s as [w self]. unfold others.
  destruct (schedule w) as [cs w'].
  apply (do_calls_spec cs (w', self)).
Qed.

Lemma loop_body_outcome s :
  kill_received (final_state (loop_body s).2).2 = kill_received s.2
  /\ (forall e s', (loop_body s).2 = Raise e s' -> e <> AssertionError).
Proof.
  destruct s as [w self]. rewrite loop_body_spec.
  destruct (paused self); [by split|].
  destruct (interrupt_check self w) as [[|] w1]; [by split|]. simpl.
  destruct (length _ =? 0); [by split|].
  destruct (RunDetection _ w1) as [ans w2].
  destruct (ans =? -1)%Z; [by split|].
  destruct (ans >? 0)%Z; [|by split].
  destruct (as_list (detected_callback self) !! Z.to_nat (ans - 1)) as [[c|]|];
    split; simpl; congruence.
Qed.

(** One round of [while not self.kill_received]. *)
Lemma detect_loop_step (fuel : nat) s t0 s0 :
  others s = (t0, Return tt s0) ->
  detect_loop (Datatypes.S fuel) s =
    if kill_received s0.2 then (t0, Return tt s0)
    else
      match loop_body s0 with
      | (tb, Return Continue sb) =>
          let '(tl, ol) := detect_loop fuel sb in (t0 ++ tb ++ tl, ol)
      | (tb, Return Break sb) => (t0 ++ tb, Return tt sb)
      | (tb, Raise e sb) => (t0 ++ tb, Raise e sb)
      | (tb, Timeout sb) => (t0 ++ tb, Timeout sb)
      end.
Proof.
  intros H0. simpl. unfold mbind, M_bind, get_self. rewrite H0. simpl.
  destruct (kill_received s0.2); simpl.
  - unfold_M. simpl. by rewrite app_nil_r.
  - destruct (loop_body s0) as [tb [[|] sb|e sb|sb]]; simpl; try done.
    + by destruct (detect_loop fuel sb) as [tl ol].
    + unfold_M. simpl. by rewrite app_nil_r.
Qed.

Lemma detect_loop_outcome (fuel : nat) : forall s,
  kill_received (final_state (detect_loop fuel s).2).2 = kill_received s.2
  /\ (forall e s', (detect_loop fuel s).2 = Raise e s' -> e <> AssertionError).
Proof.
  induction fuel as [|fuel IH]; intros s; [by split|].
  destruct (others_spec s) as (t0 & s0 & H0 & K0).
  rewrite (detect_loop_step fuel s t0 s0 H0).
  destruct (kill_received s0.2) eqn:Ek; [split; simpl; congruence|].
  destruct (loop_body_outcome s0) as [Kb Rb].
  destruct (loop_body s0) as [tb [[|] sb|e sb|sb]]; simpl in *.
  - destruct (IH sb) as [Kl Rl].
    destruct (detect_loop fuel sb) as [tl ol]; simpl in *.
    split; [congruence|]. exact Rl.
  - split; congruence.
  - split; [congruence|]. intros e' s' [= -> _]. by eapply Rb.
  - split; congruence.
Qed.

Lemma run_outcome (fuel : nat) s :
  kill_received (final_state (run fuel s).2).2 = kill_received s.2.
Proof.
  destruct s as [w self]. rewrite run_spec.
  destruct (interrupt_check self w) as [[|] w1]; [done|].
  destruct (_ =? _); [|done].
  pose proof (detect_loop_outcome fuel
    (w1, with_detected_callback self
           (PyList (broadcast_callbacks (num_hotwords self)
                      (as_list (detected_callback self)))))) as [K _].
  by destruct (detect_loop fuel _) as [t o].
Qed.

(** *** The claims about the detector *)

(** C2 (amended).  Three models with three hotwords and one sensitivity
    [x], given as a value or as a list object that holds [[x]]: the
    sensitivities in effect are [x; 0.5; 0.5], and this is the list,
    comma-joined, that the constructor hands to [SetSensitivity].  The
    value is not repeated: the two free places get the default.  (A list
    object that was given holds [x; 0.5; 0.5] afterwards.) *)
Theorem single_sensitivity_is_padded (m1 m2 m3 resource : string) (x : float)
    (sensitivity : sensitivity_arg) (audio_gain : float) (apply_frontend : bool)
    (cbs : py_arg (option callback)) (ic : World -> bool * World) w
    (h : gmap loc (list float)) :
  arg_list sensitivity h = [x] ->
  NumHotwords resource (String.concat "," [m1; m2; m3]) = 3 ->
  normalize_sensitivity 3 [m1; m2; m3] (arg_var sensitivity) (w, h)
    = ([], Return [x; half; half]
             (w, write (arg_var sensitivity) [x; half; half] h))
  /\ exists t o,
       __init__ (PyList [m1; m2; m3]) resource sensitivity audio_gain
         apply_frontend cbs ic (w, h) =
         ([SnowboyDetect resource (String.concat "," [m1; m2; m3]);
           SetAudioGain audio_gain; ApplyFrontend apply_frontend;
           SetSensitivity (String.concat "," [str x; str half; str half]);
           PyAudio] ++ t, o).
Proof.
  intros Hx Hnh. unfold arg_list in Hx. split.
  - rewrite normalize_sensitivity_spec, Hx. reflexivity.
  - rewrite init_spec. cbn zeta. unfold arg_list. rewrite Hx.
    change (as_list (PyList [m1; m2; m3])) with [m1; m2; m3]. rewrite Hnh.
    change (3 <? length [x]) with false. cbv iota.
    change ([x] ++ replicate (3 - length [x]) half) with [x; half; half].
    unfold init_prefix.
    change (length [x; half; half] =? 0) with false. cbv iota.
    destruct (open_audio 6 0 w) as [t [st w'|e w'|w']]; eauto.
Qed.

(** The empty list for any number [nh >= 1] of hotwords: the constructor
    sets [nh] times the sensitivity 0.5. *)
Lemma empty_sensitivity_is_padded (decoder_model : py_arg string) (resource : string)
    (sensitivity : sensitivity_arg) (audio_gain : float) (apply_frontend : bool)
    (cbs : py_arg (option callback)) (ic : World -> bool * World) w
    (h : gmap loc (list float)) :
  let model_str := String.concat "," (as_list decoder_model) in
  let nh := NumHotwords resource model_str in
  arg_list sensitivity h = [] ->
  1 <= nh ->
  exists t o,
    __init__ decoder_model resource sensitivity audio_gain apply_frontend cbs ic (w, h) =
      ([SnowboyDetect resource model_str; SetAudioGain audio_gain;
        ApplyFrontend apply_frontend;
        SetSensitivity (String.concat "," (map str (replicate nh half)));
        PyAudio] ++ t, o).
Proof.
  intros model_str nh Hl Hnh. rewrite init_spec. fold model_str. fold nh. cbn zeta.
  rewrite Hl.
  change (nh <? length (@nil float)) with false. cbv iota.
  change (length (@nil float)) with 0. rewrite Nat.sub_0_r, app_nil_l.
  unfold init_prefix. rewrite length_replicate.
  destruct (Nat.eqb_spec nh 0); [lia|].
  destruct (open_audio 6 0 w) as [t [st w'|e w'|w']]; eauto.
Qed.

(** X24.  In a round of the loop in which the detector is not paused, the
    interruption predicate is called first and once, before the buffer is
    drained or the engine called; when it answers true the round does
    nothing else and the loop ends there.  In a round in which the
    detector is paused the predicate is not called: the round only sleeps.
    When the predicate answers true as [run] is entered, [run] returns
    with no drain and no engine call. *)
Theorem interrupt_check_comes_first w self :
  (paused self = false ->
     exists t o,
       loop_body (w, self) = (InterruptCheck (interrupt_check self w).1 :: t, o)
       /\ count_events is_interrupt_check t = 0
       /\ ((interrupt_check self w).1 = true ->
           t = [] /\ o = Return Break ((interrupt_check self w).2, self)))
  /\ (paused self = true ->
        loop_body (w, self) = ([SleepTime], Return Continue (w, self)))
  /\ (forall fuel s t0,
        others s = (t0, Return tt (w, self)) ->
        kill_received self = false ->
        paused self = false ->
        (interrupt_check self w).1 = true ->
        detect_loop (Datatypes.S fuel) s =
          (t0 ++ [InterruptCheck true], Return tt ((interrupt_check self w).2, self)))
  /\ (forall fuel,
        (interrupt_check self w).1 = true ->
        run fuel (w, self) =
          ([InterruptCheck true], Return tt ((interrupt_check self w).2, self))
        /\ count_events is_drain (run fuel (w, self)).1 = 0
        /\ count_events is_engine_call (run fuel (w, self)).1 = 0).
Proof.
  repeat split.
  - intros Hp. rewrite loop_body_spec, Hp.
    destruct (interrupt_check self w) as [[|] w1]; simpl.
    { eexists _, _. repeat split. }
    destruct (length _ =? 0); [eexists _, _; by repeat split|].
    destruct (RunDetection _ w1) as [ans w2].
    destruct (ans =? -1)%Z; [eexists _, _; by repeat split|].
    destruct (ans >? 0)%Z; [|eexists _, _; by repeat split].
    destruct (as_list (detected_callback self) !! Z.to_nat (ans - 1)) as [[c|]|];
      eexists _, _; by repeat split.
  - intros Hp. by rewrite loop_body_spec, Hp.
  - intros fuel s t0 Ho Hk Hp Hi.
    rewrite (detect_loop_step fuel s t0 (w, self) Ho). simpl. rewrite Hk.
    rewrite loop_body_spec, Hp.
    destruct (interrupt_check self w) as [[|] w1]; simpl in *; done.
  - rewrite run_spec.
    destruct (interrupt_check self w) as [[|] w1]; simpl in *; done.
  - rewrite run_spec.
    destruct (interrupt_check self w) as [[|] w1]; simpl in *; done.
  - rewrite run_spec.
    destruct (interrupt_check self w) as [[|] w1]; simpl in *; done.
Qed.

(** C6 (amended).  No method writes [kill_received]: after
    [audio_callback], [pause], [unpause], [terminate] and [run] (however
    it ends, and whatever the other threads call meanwhile) the flag is
    what it was.  So [terminate] does not set it, and a flag that is true
    stays true. *)
Theorem kill_received_is_never_written s :
  (forall c, kill_received (final_state (do_call c s).2).2 = kill_received s.2)
  /\ kill_received (final_state (terminate s).2).2 = kill_received s.2
  /\ (forall fuel, kill_received (final_state (run fuel s).2).2 = kill_received s.2).
Proof.
  repeat split.
  - intros c. destruct (do_call_spec c s) as (t & s' & Hc & K). by rewrite Hc.
  - intros fuel. apply run_outcome.
Qed.

Lemma list_mul_singleton {A} (c : A) (n : nat) : list_mul [c] n = replicate n c.
Proof.
  unfold list_mul. induction n as [|n IH]; simpl; [done|]. by rewrite IH.
Qed.

Lemma broadcast_single (nh : nat) (c : option callback) :
  1 <= nh -> broadcast_callbacks nh [c] = replicate nh c.
Proof.
  intros Hnh. unfold broadcast_callbacks. simpl.
  destruct (Nat.ltb_spec 1 nh).
  - apply list_mul_singleton.
  - by replace nh with 1 by lia.
Qed.

Lemma broadcast_exact (nh : nat) (cbs : list (option callback)) :
  length cbs = nh -> broadcast_callbacks nh cbs = cbs.
Proof.
  intros Hlen. unfold broadcast_callbacks.
  destruct (Nat.eqb_spec (length cbs) 1); [|done].
  destruct (Nat.ltb_spec 1 nh); [lia|done].
Qed.

(** C7 (amended).  For a sensitivity argument that the caller supplies
    (anything but the shared default list of an omitted argument), the
    constructor raises [AssertionError] exactly when it has more entries
    than the engine has hotwords, and then right after the engine is set
    up: no sensitivity is set, no stream opened, nothing retried, no list
    changed.  [run] raises [AssertionError] exactly when the interruption
    predicate answers false on entry and the callbacks, after a single one
    is repeated, are not as many as the hotwords; it does so before the
    first round of the loop. *)
Theorem configuration_errors :
  (forall (decoder_model : py_arg string) (resource : string)
          (sensitivity : sensitivity_arg) (audio_gain : float) (apply_frontend : bool)
          (cbs : py_arg (option callback)) (ic : World -> bool * World) w
          (h : gmap loc (list float)),
     sensitivity <> omitted ->
     let model_str := String.concat "," (as_list decoder_model) in
     let nh := NumHotwords resource model_str in
     let r := __init__ decoder_model resource sensitivity audio_gain
                apply_frontend cbs ic (w, h) in
     ((exists p', r.2 = Raise AssertionError p') <-> nh < length (arg_list sensitivity h))
     /\ (nh < length (arg_list sensitivity h) ->
         r = ([SnowboyDetect resource model_str; SetAudioGain audio_gain;
               ApplyFrontend apply_frontend], Raise AssertionError (w, h))))
  /\ (forall (fuel : nat) w self,
        let cbs := broadcast_callbacks (num_hotwords self)
                     (as_list (detected_callback self)) in
        let r := run fuel (w, self) in
        ((exists s', r.2 = Raise AssertionError s')
           <-> (interrupt_check self w).1 = false /\ length cbs <> num_hotwords self)
        /\ ((interrupt_check self w).1 = false ->
            length cbs <> num_hotwords self ->
            r.1 = [InterruptCheck false])).
Proof.
  split.
  - intros decoder_model resource sensitivity audio_gain apply_frontend cbs ic w h
      _ model_str nh r.
    subst r. rewrite init_spec. fold model_str. fold nh. cbn zeta.
    destruct (Nat.ltb_spec nh (length (arg_list sensitivity h))) as [Hlt|Hle].
    + split; [|done]. split; [done|]. intros _. by eexists.
    + split; [|lia]. split; [|lia].
      intros [p' Hr]. exfalso.
      destruct (open_audio_fuel w) as (t & w'' & [[st Ho]|Ho]);
        rewrite Ho in Hr; simpl in Hr; congruence.
  - intros fuel w self cbs r. subst r. rewrite run_spec. fold cbs.
    destruct (interrupt_check self w) as [[|] w1]; simpl.
    + split; [|done]. split; [intros [s' Hr]; congruence|intros [? _]; done].
    + destruct (Nat.eqb_spec (num_hotwords self) (length cbs)) as [E|E].
      * split; [|intros _ Hne; congruence]. split; [|intros [_ Hne]; congruence].
        intros [s' Hr]. exfalso.
        pose proof (detect_loop_outcome fuel
          (w1, with_detected_callback self (PyList cbs))) as [_ Hraise].
        destruct (detect_loop fuel _) as [t o]. simpl in *.
        specialize (Hraise _ _ Hr). congruence.
      * split; [|done]. split; [|intros _; by eexists].
        intros _. split; [done|congruence].
Qed.

(** C10.  When the interruption predicate answers true as [run] is
    entered, [run] returns at once: the predicate was called and nothing
    else happened; the callbacks are left as they were given, are not
    counted, and no [AssertionError] comes up whatever their number. *)
Theorem run_returns_before_callback_check (fuel : nat) w self :
  (interrupt_check self w).1 = true ->
  run fuel (w, self) =
    ([InterruptCheck true], Return tt ((interrupt_check self w).2, self))
  /\ detected_callback (final_state (run fuel (w, self)).2).2 = detected_callback self
  /\ forall e s', (run fuel (w, self)).2 <> Raise e s'.
Proof.
  intros Hi. rewrite run_spec.
  destruct (interrupt_check self w) as [[|] w1]; simpl in *; done.
Qed.

End DetectorFacts.

(** * The claims on the scripted environment *)

Module Scenarios.
Import Scripted.
#[local] Existing Instance collaborators.
#[local] Open Scope string_scope.

Lemma single_sensitivity_is_padded_witness :
  arg_list (ListObject 1) {[1 := ["0.6"]]} = ["0.6"]
  /\ NumHotwords "common.res" (String.concat "," ["a"; "b"; "c"]) = 3
  /\ exists t o,
       __init__ (PyList ["a"; "b"; "c"]) "common.res" (ListObject 1) "1" false
         (Scalar None) next_interrupt (quiet, {[1 := ["0.6"]]})
       = (([SnowboyDetect "common.res" "a,b,c"; SetAudioGain "1"; ApplyFrontend false;
            SetSensitivity "0.6,0.5,0.5"; PyAudio] ++ t)%list, o).
Proof.
  split; [reflexivity|]. split; [reflexivity|].
  apply (@single_sensitivity_is_padded collaborators "a" "b" "c" "common.res" "0.6"
           (ListObject 1) "1" false (Scalar None) next_interrupt quiet
           {[1 := ["0.6"]]});
    reflexivity.
Defined.

(** C2, as stated, fails: three models and the one sensitivity 0.6 give
    the engine "0.6,0.5,0.5", not "0.6,0.6,0.6". *)
Lemma single_sensitivity_not_broadcast :
  (__init__ (PyList ["a"; "b"; "c"]) "common.res" (ListObject 1) "1" false
     (Scalar None) next_interrupt (quiet, {[1 := ["0.6"]]})).1
  = [SnowboyDetect "common.res" "a,b,c"; SetAudioGain "1"; ApplyFrontend false;
     SetSensitivity "0.6,0.5,0.5"; PyAudio; AudioOpen (Some 0)]
  /\ ~ In (SetSensitivity "0.6,0.6,0.6")
         (__init__ (PyList ["a"; "b"; "c"]) "common.res" (ListObject 1) "1" false
            (Scalar None) next_interrupt (quiet, {[1 := ["0.6"]]})).1
  /\ (exists p,
        normalize_sensitivity 3 ["a"; "b"; "c"] (Shared 1) (quiet, {[1 := ["0.6"]]})
        = ([], Return ["0.6"; "0.5"; "0.5"] p))
  /\ ~ (exists p,
          normalize_sensitivity 3 ["a"; "b"; "c"] (Shared 1) (quiet, {[1 := ["0.6"]]})
          = ([], Return ["0.6"; "0.6"; "0.6"] p)).
Proof.
  split; [reflexivity|]. split; [|split].
  - vm_compute. intros Hin.
    repeat (destruct Hin as [Hin|Hin]; [discriminate Hin|]). exact Hin.
  - eexists.
    refine (eq_trans (@normalize_sensitivity_spec collaborators 3 _ (Shared 1) quiet
                        {[1 := ["0.6"]]}) _).
    reflexivity.
  - intros [p Hp].
    rewrite (@normalize_sensitivity_spec collaborators 3 _ (Shared 1) quiet
               {[1 := ["0.6"]]}) in Hp.
    vm_compute in Hp. discriminate Hp.
Qed.

(** C3: the code against the claim.  Two models and an empty list of
    sensitivities: the constructor calls [SetSensitivity] with
    "0.5,0.5". *)
Theorem empty_sensitivity_overrides_engine_defaults :
  (__init__ (PyList ["a"; "b"]) "common.res" (ListObject 1) "1" false
     (Scalar None) next_interrupt (quiet, {[1 := []]})).1
  = [SnowboyDetect "common.res" "a,b"; SetAudioGain "1"; ApplyFrontend false;
     SetSensitivity "0.5,0.5"; PyAudio; AudioOpen (Some 0)].
Proof. reflexivity. Qed.

Lemma open_audio_retry_policy_witness :
  6 <= 6
  /\ open_audio 6 0 (opening [None; None; None; None; None; None; Some 9])
     = ([AudioOpen None; Sleep 1; AudioOpen None; Sleep 2; AudioOpen None; Sleep 3;
         AudioOpen None; Sleep 4; AudioOpen None; Sleep 5; AudioOpen None],
        Raise SnowboyOpenAudioException (opening [Some 9])).
Proof.
  split; [lia|].
  apply (@open_audio_retry_policy collaborators 6
           (opening [None; None; None; None; None; None; Some 9])); [lia|].
  intros k Hk. do 6 (destruct k as [|k]; [reflexivity|]). lia.
Defined.

Lemma interrupt_check_comes_first_witness :
  paused (loaded 1 (Scalar (Some 7)) [x01]) = false
  /\ loop_body (listening [true] [1%Z], loaded 1 (Scalar (Some 7)) [x01])
     = ([InterruptCheck true],
        Return Break (listening [] [1%Z], loaded 1 (Scalar (Some 7)) [x01])).
Proof.
  split; [reflexivity|].
  destruct (@interrupt_check_comes_first collaborators (listening [true] [1%Z])
              (loaded 1 (Scalar (Some 7)) [x01])) as (Hrun & _).
  destruct (Hrun eq_refl) as (t & o & Hbody & _ & Hbreak).
  destruct (Hbreak eq_refl) as [Ht Ho].
  refine (eq_trans Hbody _). subst t o. reflexivity.
Defined.

(** C5: the code against the claim and against the docstring of [run]
    ("Every loop it also calls interrupt_check -- if it returns True, then
    breaks from the loop and return").  A paused detector whose predicate
    would answer true does not call it: the round only sleeps, and three
    rounds later the loop is still running. *)
Lemma paused_round_skips_interrupt_check :
  (next_interrupt (listening [true] [])).1 = true
  /\ loop_body (listening [true] [], with_paused (detector 1 (Scalar None)) true)
     = ([SleepTime],
        Return Continue (listening [true] [], with_paused (detector 1 (Scalar None)) true))
  /\ count_events is_interrupt_check
       (loop_body (listening [true] [],
                   with_paused (detector 1 (Scalar None)) true)).1 = 0
  /\ detect_loop 3 (listening [true] [], with_paused (detector 1 (Scalar None)) true)
     = ([SleepTime; SleepTime; SleepTime],
        Timeout (listening [true] [], with_paused (detector 1 (Scalar None)) true)).
Proof. repeat split. Qed.

(** C6, as stated, fails: [terminate] leaves the flag false. *)
Lemma terminate_leaves_kill_received :
  kill_received (detector 1 (Scalar None)) = false
  /\ terminate (quiet, detector 1 (Scalar None))
     = ([StopStream; CloseStream; AudioTerminate],
        Return tt (quiet, detector 1 (Scalar None)))
  /\ kill_received (final_state (terminate (quiet, detector 1 (Scalar None))).2).2
     <> true.
Proof. repeat split. simpl. discriminate. Qed.

Lemma configuration_errors_witness :
  ListObject 1 <> omitted
  /\ (__init__ (PyList ["a"; "b"]) "common.res" (ListObject 1) "1"
        false (Scalar None) next_interrupt (quiet, {[1 := ["0.1"; "0.2"; "0.3"]]}))
     = ([SnowboyDetect "common.res" "a,b"; SetAudioGain "1"; ApplyFrontend false],
        Raise AssertionError (quiet, {[1 := ["0.1"; "0.2"; "0.3"]]}))
  /\ (run 4 (quiet, detector 2 (PyList [Some 1; Some 2; Some 3]))).1
     = [InterruptCheck false].
Proof.
  destruct (@configuration_errors collaborators) as [Hinit Hrun].
  split; [discriminate|]. split.
  - apply (Hinit (PyList ["a"; "b"]) "common.res" (ListObject 1) "1" false
             (Scalar None) next_interrupt quiet {[1 := ["0.1"; "0.2"; "0.3"]]}).
    + discriminate.
    + vm_compute. lia.
  - apply (Hrun 4 quiet (detector 2 (PyList [Some 1; Some 2; Some 3]))).
    + reflexivity.
    + simpl. lia.
Defined.

(** C7, as stated, fails: three callbacks for two hotwords, and the
    predicate answers true on entry: [run] returns, nothing is raised. *)
Lemma callback_mismatch_not_raised_when_interrupted :
  length (broadcast_callbacks 2 [Some 1; Some 2; Some 3]) <> 2
  /\ run 4 (listening [true] [], detector 2 (PyList [Some 1; Some 2; Some 3]))
     = ([InterruptCheck true],
        Return tt (listening [] [], detector 2 (PyList [Some 1; Some 2; Some 3])))
  /\ ~ (exists s',
          (run 4 (listening [true] [],
                  detector 2 (PyList [Some 1; Some 2; Some 3]))).2
          = Raise AssertionError s').
Proof.
  split; [simpl; lia|]. split; [reflexivity|].
  intros [s' Hr]. vm_compute in Hr. discriminate Hr.
Qed.

Lemma run_returns_before_callback_check_witness :
  (interrupt_check (detector 2 (PyList [Some 1; Some 2; Some 3]))
     (listening [true] [])).1 = true
  /\ run 4 (listening [true] [], detector 2 (PyList [Some 1; Some 2; Some 3]))
     = ([InterruptCheck true],
        Return tt (listening [] [], detector 2 (PyList [Some 1; Some 2; Some 3]))).
Proof.
  split; [reflexivity|].
  apply (@run_returns_before_callback_check collaborators 4 (listening [true] [])
           (detector 2 (PyList [Some 1; Some 2; Some 3]))).
  reflexivity.
Defined.

End Scenarios.

(** * Further properties of the ring buffer *)

Module RingBufferLaws.
Import RingBuffer.

Lemma get_wf rb : wf (get rb).2.
Proof. unfold wf. simpl. lia. Qed.

Lemma apply_maxlen rb o : maxlen (apply rb o) = maxlen rb.
Proof. destruct o; simpl; [apply RingBufferFacts.extend_maxlen|done..]. Qed.

Lemma apply_wf rb o : wf rb -> wf (apply rb o).
Proof.
  intros Hwf. destruct o; simpl.
  - by apply RingBufferFacts.extend_wf.
  - apply get_wf.
  - exact Hwf.
  - exact Hwf.
Qed.

(** X1.  Appends to an unpaused buffer that, with what is buffered, stay
    within the capacity lose nothing: [get] returns the buffered bytes
    followed by all appended bytes, in order. *)
Theorem appends_within_capacity_are_kept (rb : t) (chunks : list bytes) :
  paused rb = false ->
  length (_buf rb) + length (concat chunks) <= maxlen rb ->
  (get (extends rb chunks)).1 = _buf rb ++ concat chunks.
Proof.
  intros Hp Hfit.
  assert (Hwf : wf rb) by (unfold wf; lia).
  destruct (RingBufferFacts.extends_unpaused rb chunks Hp Hwf) as (_ & _ & Hb).
  change ((get (extends rb chunks)).1) with (_buf (extends rb chunks)).
  rewrite Hb. apply lastn_all. rewrite length_app. lia.
Qed.

Lemma appends_within_capacity_are_kept_witness :
  paused (extend (new 5) [x01]) = false
  /\ length (_buf (extend (new 5) [x01])) + length (concat [[x02; x03]; []; [x04]]) <= 5
  /\ (get (extends (extend (new 5) [x01]) [[x02; x03]; []; [x04]])).1
     = [x01; x02; x03; x04].
Proof.
  split; [reflexivity|]. split; [simpl; lia|].
  apply (appends_within_capacity_are_kept (extend (new 5) [x01]) [[x02; x03]; []; [x04]]).
  - reflexivity.
  - simpl. lia.
Defined.

(** X2.  No byte is delivered twice: a second [get] right after a [get]
    returns nothing, and a [get] after further appends returns only (the
    last [maxlen] of) the bytes appended since the first [get]. *)
Theorem drain_delivers_each_byte_once (rb : t) (chunks : list bytes) :
  paused rb = false ->
  (get (get rb).2).1 = []
  /\ (get (extends (get rb).2 chunks)).1 = lastn (maxlen rb) (concat chunks).
Proof.
  intros Hp. split; [reflexivity|].
  destruct (RingBufferFacts.extends_unpaused (get rb).2 chunks Hp (get_wf rb))
    as (_ & _ & Hb).
  exact Hb.
Qed.

Lemma drain_delivers_each_byte_once_witness :
  paused (extend (new 3) [x01; x02]) = false
  /\ (get (extends (get (extend (new 3) [x01; x02])).2 [[x03]; [x04]])).1 = [x03; x04].
Proof.
  split; [reflexivity|].
  apply (drain_delivers_each_byte_once (extend (new 3) [x01; x02]) [[x03]; [x04]]).
  reflexivity.
Defined.

(** X3.  A ring buffer of size 0 never holds a byte: whatever is appended,
    [get] returns nothing. *)
Theorem zero_capacity_buffer_stays_empty (chunks : list bytes) :
  (get (extends (new 0) chunks)).1 = [].
Proof.
  destruct (RingBufferFacts.extends_unpaused (new 0) chunks eq_refl
              (RingBufferFacts.new_wf 0)) as (_ & _ & Hb).
  change ((get (extends (new 0) chunks)).1) with (_buf (extends (new 0) chunks)).
  rewrite Hb. unfold lastn. simpl. rewrite Nat.sub_0_r. apply drop_all.
Qed.

(** X4.  How the data is cut into calls does not matter: appending
    [d1 ++ d2] is appending [d1] and then [d2], and a run of appends is one
    append of the concatenation.  This holds paused or not, at any fill. *)
Theorem extend_is_independent_of_framing (rb : t) :
  (forall d1 d2, extend rb (d1 ++ d2) = extend (extend rb d1) d2)
  /\ (forall chunks, extends rb chunks = extend rb (concat chunks)).
Proof.
  assert (Happ : forall r d1 d2, extend r (d1 ++ d2) = extend (extend r d1) d2).
  { intros r d1 d2. destruct (paused r) eqn:Hp.
    - rewrite (RingBufferFacts.extend_paused_id r (d1 ++ d2) Hp).
      rewrite (RingBufferFacts.extend_paused_id r d1 Hp).
      by rewrite (RingBufferFacts.extend_paused_id r d2 Hp).
    - unfold extend. rewrite Hp. simpl. by rewrite deque_extend_app. }
  assert (Hnil : forall r, extend r [] = r).
  { intros [m b p]. unfold extend. by destruct p. }
  split; [apply Happ|].
  intros chunks. unfold extends. revert rb.
  induction chunks as [|c chunks IH]; intros rb; simpl.
  - by rewrite Hnil.
  - by rewrite IH, Happ.
Qed.

(** X5.  Whatever methods are called on a ring buffer, in whatever order,
    it never holds more bytes than the size it was made with, and that
    size never changes. *)
Theorem ring_buffer_invariant (size : nat) (ops : list op) :
  wf (applies (new size) ops)
  /\ maxlen (applies (new size) ops) = size
  /\ length (_buf (applies (new size) ops)) <= size.
Proof.
  assert (H : forall rb, wf rb ->
            wf (applies rb ops) /\ maxlen (applies rb ops) = maxlen rb).
  { unfold applies. induction ops as [|o ops IH]; intros rb Hwf; simpl; [done|].
    destruct (IH (apply rb o) (apply_wf rb o Hwf)) as [Hw Hm].
    split; [done|]. by rewrite Hm, apply_maxlen. }
  destruct (H (new size) (RingBufferFacts.new_wf size)) as [Hw Hm].
  split; [done|]. split; [done|].
  unfold wf in Hw. by rewrite Hm in Hw.
Qed.

End RingBufferLaws.

(** * Further properties of the detector *)

Section DetectorLaws.
Context `{Collaborators}.
Implicit Types (w : World) (self : HotwordDetector) (s : St).

(** *** Traces and states *)

Lemma count_events_app (p : event -> bool) (t1 t2 : list event) :
  count_events p (t1 ++ t2) = count_events p t1 + count_events p t2.
Proof. unfold count_events. by rewrite List.filter_app, length_app. Qed.


Lemma orderly_nil cbs : orderly cbs [].
Proof. unfold orderly, count_events. simpl. repeat split; by constructor. Qed.

Lemma orderly_app cbs t1 t2 : orderly cbs t1 -> orderly cbs t2 -> orderly cbs (t1 ++ t2).
Proof.
  intros (F1 & C1 & D1 & G1) (F2 & C2 & D2 & G2).
  unfold orderly. rewrite !count_events_app.
  repeat split; [by apply Forall_app|by apply Forall_app|lia|lia].
Qed.

Lemma same_setup_refl self : same_setup self self.
Proof. by unfold same_setup. Qed.

Lemma same_setup_trans self1 self2 self3 :
  same_setup self1 self2 -> same_setup self2 self3 -> same_setup self1 self3.
Proof. unfold same_setup. intuition congruence. Qed.

(** *** The calls of the other threads *)

Lemma do_call_eq (c : call) w self :
  do_call c (w, self) =
    match c with
    | AudioCallback in_data =>
        ([], Return tt (w, with_ring_buffer self
                             (RingBuffer.extend (ring_buffer self) in_data)))
    | CallPause =>
        ([], Return tt (w, with_ring_buffer (with_paused self true)
                             (RingBuffer.pause (ring_buffer self))))
    | CallUnpause =>
        ([], Return tt (w, with_ring_buffer (with_paused self false)
                             (RingBuffer.unpause (ring_buffer self))))
    | CallTerminate => ([StopStream; CloseStream; AudioTerminate], Return tt (w, self))
    end.
Proof. by destruct c. Qed.

Lemma do_call_keeps (c : call) s :
  exists t s',
    do_call c s = (t, Return tt s')
    /\ same_setup s.2 s'.2
    /\ (detector_ok s.2 -> detector_ok s'.2)
    /\ (forall cbs, orderly cbs t)
    /\ Forall (fun e => is_loop_event e = false) t.
Proof.
  destruct s as [w self]. rewrite do_call_eq.
  destruct c as [d| | |]; eexists _, _; (split; [reflexivity|]); simpl.
  - split; [|split; [|split]].
    + unfold same_setup. simpl. by rewrite RingBufferFacts.extend_maxlen.
    + intros [Hs Hw]. split.
      * unfold in_sync in *. simpl. by rewrite RingBufferFacts.extend_paused.
      * simpl. by apply RingBufferFacts.extend_wf.
    + intros cbs. apply orderly_nil.
    + constructor.
  - split; [done|]. split; [|split; [intros; apply orderly_nil|constructor]].
    intros [Hs Hw]. by split.
  - split; [done|]. split; [|split; [intros; apply orderly_nil|constructor]].
    intros [Hs Hw]. by split.
  - split; [apply same_setup_refl|]. split; [done|]. split.
    + intros cbs. unfold orderly, count_events. simpl.
      repeat split; repeat constructor.
    + repeat constructor.
Qed.

Lemma do_calls_keeps (cs : list call) : forall s,
  exists t s',
    do_calls cs s = (t, Return tt s')
    /\ same_setup s.2 s'.2
    /\ (detector_ok s.2 -> detector_ok s'.2)
    /\ (forall cbs, orderly cbs t)
    /\ Forall (fun e => is_loop_event e = false) t.
Proof.
  induction cs as [|c cs IH]; intros s; simpl.
  - exists [], s. unfold_M. split; [done|]. split; [apply same_setup_refl|].
    split; [done|]. split; [intros; apply orderly_nil|constructor].
  - destruct (do_call_keeps c s) as (t1 & s1 & H1 & S1 & K1 & O1 & L1).
    destruct (IH s1) as (t2 & s2 & H2 & S2 & K2 & O2 & L2).
    exists (t1 ++ t2), s2. unfold mbind, M_bind. rewrite H1, H2.
    split; [done|]. split; [by eapply same_setup_trans|].
    split; [tauto|]. split; [intros; by apply orderly_app|by apply Forall_app].
Qed.

Lemma others_keeps s :
  exists t s',
    others s = (t, Return tt s')
    /\ same_setup s.2 s'.2
    /\ (detector_ok s.2 -> detector_ok s'.2)
    /\ (forall cbs, orderly cbs t)
    /\ Forall (fun e => is_loop_event e = false) t.
Proof.
  destruct s as [w self]. unfold others.
  destruct (schedule w) as [cs w'].
  apply (do_calls_keeps cs (w', self)).
Qed.

(** *** One round, and the loop *)

Lemma loop_body_keeps s :
  same_setup s.2 (final_state (loop_body s).2).2
  /\ (detector_ok s.2 -> detector_ok (final_state (loop_body s).2).2)
  /\ orderly (as_list (detected_callback s.2)) (loop_body s).1.
Proof.
  destruct s as [w self]. rewrite loop_body_spec.
  assert (Hok : detector_ok self ->
            detector_ok (with_ring_buffer self (RingBuffer.get (ring_buffer self)).2)).
  { intros [Hs Hw]. split; [exact Hs|]. apply RingBufferLaws.get_wf. }
  assert (Hsame : same_setup self
            (with_ring_buffer self (RingBuffer.get (ring_buffer self)).2))
    by (by unfold same_setup).
  assert (Hord : forall cbs l,
            Forall fed_data l -> Forall (callback_from cbs) l ->
            count_events is_engine_call l <= count_events is_drain l ->
            count_events is_drain l <= count_events is_interrupt_check l ->
            orderly cbs l) by (by unfold orderly).
  destruct (paused self).
  { simpl. split; [apply same_setup_refl|]. split; [done|].
    apply Hord; unfold count_events; simpl; repeat constructor. }
  destruct (interrupt_check self w) as [[|] w1].
  { simpl. split; [apply same_setup_refl|]. split; [done|].
    apply Hord; unfold count_events; simpl; repeat constructor. }
  cbn zeta.
  destruct (Nat.eqb_spec (length (RingBuffer._buf (ring_buffer self))) 0) as [E|E].
  { simpl. split; [done|]. split; [done|].
    apply Hord; unfold count_events; simpl; repeat constructor. }
  assert (Hdata : RingBuffer._buf (ring_buffer self) <> [])
    by (intros Hnil; rewrite Hnil in E; simpl in E; lia).
  destruct (RunDetection _ w1) as [ans w2].
  assert (Hpre : forall cbs,
            orderly cbs [InterruptCheck false;
                         RingBufferGet (RingBuffer._buf (ring_buffer self));
                         Detection (RingBuffer._buf (ring_buffer self)) ans]).
  { intros cbs. apply Hord; unfold count_events; simpl; repeat constructor; done. }
  destruct (ans =? -1)%Z; [simpl; by auto|].
  destruct (ans >? 0)%Z; [|simpl; by auto].
  destruct (as_list (detected_callback self) !! Z.to_nat (ans - 1)) as [[c|]|] eqn:Ec;
    simpl; [|by auto..].
  split; [done|]. split; [done|].
  apply (orderly_app _ [_; _; _] [_]); [apply Hpre|].
  apply Hord; unfold count_events; simpl; [repeat constructor| |lia|lia].
  constructor; [|constructor]. simpl. by eapply list_elem_of_lookup_2.
Qed.

Lemma detect_loop_keeps (fuel : nat) : forall s,
  same_setup s.2 (final_state (detect_loop fuel s).2).2
  /\ (detector_ok s.2 -> detector_ok (final_state (detect_loop fuel s).2).2)
  /\ orderly (as_list (detected_callback s.2)) (detect_loop fuel s).1.
Proof.
  induction fuel as [|fuel IH]; intros s.
  { simpl. split; [apply same_setup_refl|]. split; [done|apply orderly_nil]. }
  destruct (others_keeps s) as (t0 & s0 & H0 & S0 & K0 & O0 & _).
  rewrite (detect_loop_step fuel s t0 s0 H0).
  assert (Ecb : detected_callback s0.2 = detected_callback s.2) by apply S0.
  destruct (kill_received s0.2); [simpl; by auto|].
  destruct (loop_body_keeps s0) as (Sb & Kb & Ob). rewrite Ecb in Ob.
  destruct (loop_body s0) as [tb [[|] sb|e sb|sb]]; simpl in *.
  - destruct (IH sb) as (Sl & Kl & Ol).
    assert (Ecb' : detected_callback sb.2 = detected_callback s.2)
      by (destruct Sb as [-> _]; exact Ecb).
    rewrite Ecb' in Ol.
    destruct (detect_loop fuel sb) as [tl ol]; simpl in *.
    split; [eauto using same_setup_trans|]. split; [tauto|].
    apply orderly_app; [apply O0|]. by apply orderly_app.
  - split; [eauto using same_setup_trans|]. split; [tauto|].
    apply orderly_app; [apply O0|done].
  - split; [eauto using same_setup_trans|]. split; [tauto|].
    apply orderly_app; [apply O0|done].
  - split; [eauto using same_setup_trans|]. split; [tauto|].
    apply orderly_app; [apply O0|done].
Qed.

Lemma broadcast_elem (nh : nat) (cbs : list (option callback)) (x : option callback) :
  x ∈ broadcast_callbacks nh cbs -> x ∈ cbs.
Proof.
  unfold broadcast_callbacks, list_mul.
  destruct ((length cbs =? 1) && (1 <? nh)); [|done].
  induction nh as [|n IH]; simpl.
  - by intros ?%elem_of_nil.
  - intros [?|?]%elem_of_app; [done|by apply IH].
Qed.

Lemma broadcast_idempotent (nh : nat) (cbs : list (option callback)) :
  broadcast_callbacks nh (broadcast_callbacks nh cbs) = broadcast_callbacks nh cbs.
Proof.
  destruct ((length cbs =? 1) && (1 <? nh)) eqn:Hb.
  - apply andb_prop in Hb as [H1 H2].
    apply Nat.eqb_eq in H1. apply Nat.ltb_lt in H2.
    destruct cbs as [|c [|? ?]]; simpl in H1; try lia.
    rewrite !(broadcast_single nh c) by lia.
    apply broadcast_exact. apply length_replicate.
  - assert (E : broadcast_callbacks nh cbs = cbs)
      by (unfold broadcast_callbacks; by rewrite Hb).
    by rewrite !E.
Qed.

(** *** The ring buffer seen from the detector *)

(** X6.  The PortAudio callback answers every frame with as many zero
    bytes as it got and with [paContinue], and does nothing but append the
    frame to the ring buffer.  After [pause()] the frame is dropped: the
    detector is exactly as [pause()] left it. *)
Theorem audio_callback_contract (in_data : bytes) w self :
  audio_callback in_data (w, self) =
    ([], Return (replicate (length in_data) x00, paContinue)
           (w, with_ring_buffer self (RingBuffer.extend (ring_buffer self) in_data)))
  /\ (forall s1 t,
        pause (w, self) = (t, Return tt s1) ->
        audio_callback in_data s1 =
          ([], Return (replicate (length in_data) x00, paContinue) s1)).
Proof.
  split; [reflexivity|].
  intros s1 t Hp. injection Hp as _ <-. reflexivity.
Qed.

(** X7.  The two [paused] flags (of the detector and of its ring buffer)
    agree after [pause()] and after [unpause()], whatever they were; and a
    detector whose flags agree and whose ring buffer is within its bound
    stays so under every call of another thread and under [run], however
    [run] ends. *)
Theorem pause_flags_stay_in_sync s :
  in_sync (final_state (pause s).2).2
  /\ in_sync (final_state (unpause s).2).2
  /\ (detector_ok s.2 ->
      (forall c, detector_ok (final_state (do_call c s).2).2)
      /\ (forall fuel, detector_ok (final_state (run fuel s).2).2)).
Proof.
  destruct s as [w self]. split; [reflexivity|]. split; [reflexivity|].
  intros Hok. split.
  - intros c. destruct (do_call_keeps c (w, self)) as (t & s' & Hc & _ & K & _).
    rewrite Hc. by apply K.
  - intros fuel. rewrite run_spec.
    destruct (interrupt_check self w) as [[|] w1]; [done|].
    destruct (_ =? _); [|done].
    match goal with |- context [detect_loop fuel ?s0] =>
      destruct (detect_loop_keeps fuel s0) as (_ & K & _);
      destruct (detect_loop fuel s0) as [t o] end.
    by apply K.
Qed.

(** X8.  No call of another thread and no [run] changes the number of
    hotwords, the stream handle, the interruption predicate or the size of
    the ring buffer; the calls of the other threads also leave the
    callbacks alone. *)
Theorem setup_is_never_changed s :
  (forall c, same_setup s.2 (final_state (do_call c s).2).2)
  /\ (forall fuel,
        num_hotwords (final_state (run fuel s).2).2 = num_hotwords s.2
        /\ stream_in (final_state (run fuel s).2).2 = stream_in s.2
        /\ interrupt_check (final_state (run fuel s).2).2 = interrupt_check s.2
        /\ RingBuffer.maxlen (ring_buffer (final_state (run fuel s).2).2)
           = RingBuffer.maxlen (ring_buffer s.2)).
Proof.
  destruct s as [w self]. split.
  - intros c. destruct (do_call_keeps c (w, self)) as (t & s' & Hc & S & _).
    by rewrite Hc.
  - intros fuel. rewrite run_spec.
    destruct (interrupt_check self w) as [[|] w1]; [done|].
    destruct (_ =? _); [|done].
    match goal with |- context [detect_loop fuel ?s0] =>
      destruct (detect_loop_keeps fuel s0) as (S & _ & _);
      destruct (detect_loop fuel s0) as [t o] end.
    simpl in *. unfold same_setup in S. simpl in S. tauto.
Qed.

(** *** [run] *)

(** X9.  Putting the callbacks in order is idempotent: after a [run] has
    done it, doing it again (a second [run]) changes nothing and the
    assertion holds again. *)
Theorem normalize_callbacks_idempotent w w' self self' :
  normalize_callbacks (w, self) = ([], Return tt (w, self')) ->
  normalize_callbacks (w', self') = ([], Return tt (w', self')).
Proof.
  rewrite normalize_callbacks_spec. cbn zeta.
  destruct (Nat.eqb_spec (num_hotwords self)
              (length (broadcast_callbacks (num_hotwords self)
                         (as_list (detected_callback self))))) as [E|E]; [|done].
  intros [= <-]. rewrite normalize_callbacks_spec. cbn zeta.
  change (as_list (detected_callback (with_detected_callback self ?v)))
    with (as_list v).
  simpl. rewrite broadcast_idempotent.
  by destruct (Nat.eqb_spec (num_hotwords self)
              (length (broadcast_callbacks (num_hotwords self)
                         (as_list (detected_callback self))))).
Qed.

(** X10.  A round on an empty ring buffer: after the interruption check
    the buffer is read, nothing is sent to the engine, no callback is
    called, and the loop sleeps [sleep_time] and goes on. *)
Theorem round_with_empty_buffer_sleeps w w1 self :
  paused self = false ->
  interrupt_check self w = (false, w1) ->
  RingBuffer._buf (ring_buffer self) = [] ->
  loop_body (w, self) =
    ([InterruptCheck false; RingBufferGet []; SleepTime],
     Return Continue (w1, with_ring_buffer self (RingBuffer.get (ring_buffer self)).2)).
Proof.
  intros Hp Hi Hb. rewrite loop_body_spec, Hp, Hi. cbn zeta. by rewrite Hb.
Qed.

(** X11.  An engine answer that is not positive (the error answer -1, the
    answer 0, any other negative number) is not fatal and calls no
    callback: the round drains the buffer, calls the engine once with all
    the drained bytes, and the loop goes on with an empty buffer. *)
Theorem engine_error_is_not_fatal w w1 w2 self data ans :
  paused self = false ->
  interrupt_check self w = (false, w1) ->
  RingBuffer._buf (ring_buffer self) = data ->
  data <> [] ->
  RunDetection data w1 = (ans, w2) ->
  (ans <= 0)%Z ->
  loop_body (w, self) =
    ([InterruptCheck false; RingBufferGet data; Detection data ans],
     Return Continue (w2, with_ring_buffer self (RingBuffer.get (ring_buffer self)).2))
  /\ RingBuffer._buf
       (ring_buffer (with_ring_buffer self (RingBuffer.get (ring_buffer self)).2)) = [].
Proof.
  intros Hp Hi Hb Hne Hr Hans. split; [|reflexivity].
  rewrite loop_body_spec, Hp, Hi. cbn zeta. rewrite Hb.
  destruct data as [|b data]; [done|].
  change (length (b :: data) =? 0) with false. cbv iota. rewrite Hr.
  destruct (Z.eqb_spec ans (-1)); [done|].
  destruct (Z.gtb_spec ans 0); [lia|done].
Qed.

(** X12.  An engine answer above the number of callbacks is fatal: the
    lookup [self.detected_callback[ans-1]] raises [IndexError] out of the
    round, and out of the loop, after the buffer was drained and the
    engine called. *)
Theorem answer_beyond_callbacks_raises_IndexError w w1 w2 self data ans :
  paused self = false ->
  interrupt_check self w = (false, w1) ->
  RingBuffer._buf (ring_buffer self) = data ->
  data <> [] ->
  RunDetection data w1 = (ans, w2) ->
  (Z.of_nat (length (as_list (detected_callback self))) < ans)%Z ->
  loop_body (w, self) =
    ([InterruptCheck false; RingBufferGet data; Detection data ans],
     Raise IndexError (w2, with_ring_buffer self (RingBuffer.get (ring_buffer self)).2))
  /\ (forall fuel s t0,
        others s = (t0, Return tt (w, self)) ->
        kill_received self = false ->
        detect_loop (Datatypes.S fuel) s =
          (t0 ++ [InterruptCheck false; RingBufferGet data; Detection data ans],
           Raise IndexError
             (w2, with_ring_buffer self (RingBuffer.get (ring_buffer self)).2))).
Proof.
  intros Hp Hi Hb Hne Hr Hans.
  assert (Hbody : loop_body (w, self) =
    ([InterruptCheck false; RingBufferGet data; Detection data ans],
     Raise IndexError (w2, with_ring_buffer self (RingBuffer.get (ring_buffer self)).2))).
  { rewrite loop_body_spec, Hp, Hi. cbn zeta. rewrite Hb.
    destruct data as [|b data]; [done|].
    change (length (b :: data) =? 0) with false. cbv iota. rewrite Hr.
    destruct (Z.eqb_spec ans (-1)); [lia|].
    destruct (Z.gtb_spec ans 0); [|lia].
    rewrite lookup_ge_None_2; [done|lia]. }
  split; [exact Hbody|].
  intros fuel s t0 Ho Hk.
  rewrite (detect_loop_step fuel s t0 (w, self) Ho). simpl. rewrite Hk.
  by rewrite Hbody.
Qed.

(** X13.  A set [kill_received] ends the loop at its next test: the
    round is not entered, so after the calls of the other threads there is
    no interruption check, no drain, no engine call, no callback and no
    sleep. *)
Theorem kill_received_stops_the_loop (fuel : nat) s :
  kill_received s.2 = true ->
  exists t0 s0,
    detect_loop (Datatypes.S fuel) s = (t0, Return tt s0)
    /\ others s = (t0, Return tt s0)
    /\ Forall (fun e => is_loop_event e = false) t0.
Proof.
  intros Hk.
  destruct (others_keeps s) as (t0 & s0 & H0 & S0 & _ & _ & L0).
  exists t0, s0. split; [|done].
  rewrite (detect_loop_step fuel s t0 s0 H0).
  destruct S0 as (_ & _ & -> & _). by rewrite Hk.
Qed.

(** X14.  While the detector is paused and no other thread calls it, the
    loop only sleeps: [n] rounds are [n] sleeps of [sleep_time], the
    interruption predicate is not asked, and the loop is still running. *)
Theorem paused_loop_only_sleeps (n : nat) w self :
  schedule w = ([], w) ->
  kill_received self = false ->
  paused self = true ->
  detect_loop n (w, self) = (replicate n SleepTime, Timeout (w, self)).
Proof.
  intros Hs Hk Hp.
  assert (Ho : others (w, self) = ([], Return tt (w, self)))
    by (unfold others; by rewrite Hs).
  induction n as [|n IH]; [done|].
  rewrite (detect_loop_step n (w, self) [] (w, self) Ho). simpl. rewrite Hk.
  rewrite loop_body_spec, Hp. by rewrite IH.
Qed.

(** X15.  In every trace of [run] the engine is only called with blocks
    that are not empty. *)
Theorem engine_never_gets_an_empty_block (fuel : nat) s :
  Forall fed_data (run fuel s).1.
Proof.
  destruct s as [w self]. rewrite run_spec.
  destruct (interrupt_check self w) as [[|] w1]; [repeat constructor|].
  destruct (_ =? _); [|repeat constructor].
  match goal with |- context [detect_loop fuel ?s0] =>
    destruct (detect_loop_keeps fuel s0) as (_ & _ & O);
    destruct (detect_loop fuel s0) as [t o] end.
  simpl. constructor; [done|]. apply O.
Qed.

(** X16.  In every trace of [run] every callback that is called is one
    of the callbacks the detector was given. *)
Theorem only_given_callbacks_are_called (fuel : nat) s :
  Forall (callback_from (as_list (detected_callback s.2))) (run fuel s).1.
Proof.
  destruct s as [w self]. rewrite run_spec.
  destruct (interrupt_check self w) as [[|] w1]; [repeat constructor|].
  destruct (_ =? _); [|repeat constructor].
  match goal with |- context [detect_loop fuel ?s0] =>
    destruct (detect_loop_keeps fuel s0) as (_ & _ & O);
    destruct (detect_loop fuel s0) as [t o] end.
  simpl in *. constructor; [done|].
  destruct O as (_ & O & _). eapply Forall_impl; [exact O|].
  intros [] He; simpl in *; try done. by eapply broadcast_elem.
Qed.

(** X17.  In every trace of [run] there are no more engine calls than
    drains, and fewer drains than calls of the interruption predicate: the
    predicate is asked before every drain, and once more on entry. *)
Theorem drains_are_bounded_by_checks (fuel : nat) s :
  count_events is_engine_call (run fuel s).1 <= count_events is_drain (run fuel s).1
  /\ count_events is_drain (run fuel s).1 < count_events is_interrupt_check (run fuel s).1.
Proof.
  destruct s as [w self]. rewrite run_spec.
  destruct (interrupt_check self w) as [[|] w1]; [unfold count_events; simpl; lia|].
  destruct (_ =? _); [|unfold count_events; simpl; lia].
  match goal with |- context [detect_loop fuel ?s0] =>
    destruct (detect_loop_keeps fuel s0) as (_ & _ & O);
    destruct (detect_loop fuel s0) as [t o] end.
  destruct O as (_ & _ & D & G). simpl in *.
  change (InterruptCheck false :: t) with ([InterruptCheck false] ++ t).
  rewrite !count_events_app. unfold count_events at 1 3 5 7. simpl. lia.
Qed.

(** X18.  Once [run] is past its entry (the predicate answered false and
    the assertion held), the callbacks are, to the end of the run, the
    list made on entry, with one entry for each hotword. *)
Theorem callbacks_stay_in_order (fuel : nat) w self :
  (interrupt_check self w).1 = false ->
  num_hotwords self
    = length (broadcast_callbacks (num_hotwords self) (as_list (detected_callback self))) ->
  detected_callback (final_state (run fuel (w, self)).2).2
    = PyList (broadcast_callbacks (num_hotwords self) (as_list (detected_callback self)))
  /\ length (as_list (detected_callback (final_state (run fuel (w, self)).2).2))
     = num_hotwords (final_state (run fuel (w, self)).2).2.
Proof.
  intros Hi Hn. rewrite run_spec.
  destruct (interrupt_check self w) as [[|] w1]; [done|].
  destruct (Nat.eqb_spec (num_hotwords self)
              (length (broadcast_callbacks (num_hotwords self)
                         (as_list (detected_callback self))))) as [E|E]; [|done].
  match goal with |- context [detect_loop fuel ?s0] =>
    destruct (detect_loop_keeps fuel s0) as (S & _ & _);
    destruct (detect_loop fuel s0) as [t o] end.
  simpl in *. destruct S as (Hd & _ & _ & Hh & _). simpl in *.
  rewrite Hd, Hh. split; [done|]. simpl. by rewrite <- Hn.
Qed.

(** C8.  [run], once the interruption predicate has answered false on
    entry and the count assertion holds, is the loop started on the
    detector whose callbacks are the list [cbs] made on entry: [N] times
    the single callback when one was given (as a value or a one-item
    list) for [N >= 1] hotwords, so that every index [k - 1] with
    [1 <= k <= N] leads to it; the [N] given callbacks when [N] were given.
    In every round of that loop (every round starts from a state whose
    callbacks are [cbs], and leaves such a state) in which the engine
    answers [k], [1 <= k <= N], the loop looks up the entry [k - 1] of
    [cbs]; a callable there is called in that round, right after the
    engine call, and nothing is called for [None]; then the loop goes on:
    the rest of its trace and its outcome are those of the loop run on from
    the state the round left. *)
Theorem match_invokes_callback_at_index w self :
  let nh := num_hotwords self in
  let cbs := broadcast_callbacks nh (as_list (detected_callback self)) in
  (forall fuel,
     (interrupt_check self w).1 = false ->
     length cbs = nh ->
     run fuel (w, self) =
       let '(t, o) := detect_loop fuel ((interrupt_check self w).2,
                                        with_detected_callback self (PyList cbs)) in
       (InterruptCheck false :: t, o))
  /\ (forall c,
        as_list (detected_callback self) = [c] ->
        1 <= nh ->
        cbs = replicate nh c
        /\ length cbs = nh
        /\ forall k, (1 <= k <= Z.of_nat nh)%Z -> cbs !! Z.to_nat (k - 1) = Some c)
  /\ (length (as_list (detected_callback self)) = nh ->
      cbs = as_list (detected_callback self) /\ length cbs = nh)
  /\ (forall fuel s t0 w0 self0 w1 w2 data k,
        detected_callback s.2 = PyList cbs ->
        others s = (t0, Return tt (w0, self0)) ->
        kill_received self0 = false ->
        paused self0 = false ->
        interrupt_check self0 w0 = (false, w1) ->
        RingBuffer._buf (ring_buffer self0) = data ->
        data <> [] ->
        RunDetection data w1 = (k, w2) ->
        (1 <= k <= Z.of_nat (length cbs))%Z ->
        exists c,
          cbs !! Z.to_nat (k - 1) = Some c
          /\ detected_callback
               (with_ring_buffer self0 (RingBuffer.get (ring_buffer self0)).2)
             = PyList cbs
          /\ detect_loop (Datatypes.S fuel) s =
               let '(tl, ol) :=
                 detect_loop fuel
                   (match c with Some f => invoke f w2 | None => w2 end,
                    with_ring_buffer self0 (RingBuffer.get (ring_buffer self0)).2) in
               (t0 ++ [InterruptCheck false; RingBufferGet data; Detection data k]
                   ++ match c with Some f => [Callback f] | None => [] end ++ tl,
                ol)).
Proof.
  intros nh cbs. split; [|split; [|split]].
  - intros fuel Hi Hlen. rewrite run_spec. fold nh. fold cbs.
    destruct (interrupt_check self w) as [[|] w1]; [done|].
    rewrite Hlen, Nat.eqb_refl. reflexivity.
  - intros c Hc Hnh. unfold cbs. rewrite Hc, broadcast_single by done.
    split; [done|]. split; [apply length_replicate|].
    intros k Hk. apply lookup_replicate_2. lia.
  - intros Hlen. unfold cbs. by rewrite broadcast_exact.
  - intros fuel s t0 w0 self0 w1 w2 data k Hcb Ho Hk Hp Hi Hdata Hne Hrun Hrange.
    destruct (lookup_lt_is_Some_2 cbs (Z.to_nat (k - 1))) as [c Hc]; [lia|].
    exists c. split; [done|].
    assert (Hcb0 : detected_callback self0 = PyList cbs).
    { destruct (others_keeps s) as (t0' & s0' & Ho' & S0 & _).
      rewrite Ho in Ho'. injection Ho' as _ <-.
      destruct S0 as [E _]. simpl in E. by rewrite E. }
    split; [exact Hcb0|].
    rewrite (detect_loop_step fuel s t0 (w0, self0) Ho).
    change (kill_received (w0, self0).2) with (kill_received self0). rewrite Hk.
    rewrite loop_body_spec, Hp, Hi. cbn zeta. rewrite Hdata.
    destruct data as [|b data]; [done|].
    change (length (b :: data) =? 0) with false. cbv iota.
    rewrite Hrun.
    destruct (Z.eqb_spec k (-1)); [lia|].
    destruct (Z.gtb_spec k 0); [|lia].
    rewrite Hcb0. change (as_list (PyList cbs)) with cbs. rewrite Hc.
    destruct c as [f|]; simpl;
      by destruct (detect_loop fuel _) as [tl ol].
Qed.

End DetectorLaws.

(** * Further properties of the constructor *)

Section ConstructorLaws.
Context `{Collaborators}.
Implicit Types (w : World).

Lemma world_after_opens_S (k : nat) w :
  world_after_opens (Datatypes.S k) w = (audio_open (world_after_opens k w)).2.
Proof.
  revert w. induction k as [|k IH]; intros w; [done|].
  change (world_after_opens (Datatypes.S (Datatypes.S k)) w)
    with (world_after_opens (Datatypes.S k) (audio_open w).2).
  by rewrite IH.
Qed.

(** A returned stream is the answer of the last call of [audio.open]. *)
Lemma open_audio_return (n : nat) : forall (i : nat) w t st w',
  open_audio n i w = (t, Return st w') ->
  exists t0, t = t0 ++ [AudioOpen (Some st)].
Proof.
  induction n as [|n IH]; intros i w t st w'; [done|].
  rewrite open_audio_step.
  destruct (audio_open w) as [[st0|] w0].
  - intros [= <- <- <-]. by exists [].
  - destruct (i =? 5); [done|].
    destruct (open_audio n (i + 1) w0) as [t1 o1] eqn:E1.
    intros [= <- ->].
    destruct (IH _ _ _ _ _ E1) as [t0 ->].
    by exists (AudioOpen None :: Sleep (i + 1) :: t0).
Qed.

(** An exception out of [open_audio] is [SnowboyOpenAudioException], and
    every attempt has failed. *)
Lemma open_audio_raise (n : nat) : forall (i : nat) w t e w',
  i + n = 6 ->
  open_audio n i w = (t, Raise e w') ->
  e = SnowboyOpenAudioException /\ forall k, k < n -> open_result k w = None.
Proof.
  induction n as [|n IH]; intros i w t e w' Hn; [done|].
  rewrite open_audio_step.
  destruct (audio_open w) as [[st0|] w0] eqn:Eo; [done|].
  destruct (Nat.eqb_spec i 5) as [E|E].
  - intros [= <- <- <-]. split; [done|].
    intros k Hk. assert (k = 0) as -> by lia.
    by rewrite open_result_0, Eo.
  - destruct (open_audio n (i + 1) w0) as [t1 o1] eqn:E1.
    intros [= <- ->].
    destruct (IH (i + 1) w0 t1 e w' ltac:(lia) E1) as [He Hf].
    split; [done|]. intros [|k] Hk.
    + by rewrite open_result_0, Eo.
    + rewrite open_result_S, Eo. apply Hf. lia.
Qed.

Lemma open_audio_all_fail w :
  (forall k, k < 6 -> open_result k w = None) ->
  open_audio 6 0 w =
    (failed_attempts 0 5 ++ [AudioOpen None],
     Raise SnowboyOpenAudioException (world_after_opens 6 w)).
Proof.
  intros Hfail.
  change 6 with (5 + 1) at 1.
  rewrite open_audio_failures; [|lia|intros j Hj; apply Hfail; lia].
  rewrite open_audio_step, (world_after_opens_S 5 w).
  pose proof (Hfail 5 ltac:(lia)) as H5. unfold open_result in H5.
  destruct (audio_open (world_after_opens 5 w)) as [r w']. simpl in H5. subst r.
  reflexivity.
Qed.


(** X19.  The constructor always comes to an end, in one of three ways.
    With [AssertionError], when the sensitivity list it works on (the list
    given, the one-item list made of a value, or, for an argument left
    out, the shared default list as earlier calls left it) has more
    entries than the engine has hotwords; no list is changed then.  With
    [SnowboyOpenAudioException].  Or with a detector that is not paused
    and not killed, has the engine's number of hotwords, an empty ring
    buffer for five seconds of audio ([NumChannels * SampleRate * 5]
    bytes) and the stream that the last call of [audio.open] returned. *)
Theorem constructor_outcome (decoder_model : py_arg string) (resource : string)
    (sensitivity : sensitivity_arg) (audio_gain : float) (apply_frontend : bool)
    (cbs : py_arg (option callback)) (ic : World -> bool * World) w
    (h : gmap loc (list float)) :
  let nh := NumHotwords resource (String.concat "," (as_list decoder_model)) in
  let r := __init__ decoder_model resource sensitivity audio_gain apply_frontend
             cbs ic (w, h) in
  (nh < length (arg_list sensitivity h) /\ r.2 = Raise AssertionError (w, h))
  \/ (length (arg_list sensitivity h) <= nh
      /\ exists p', r.2 = Raise SnowboyOpenAudioException p')
  \/ (length (arg_list sensitivity h) <= nh
      /\ exists st p' t0 self,
           r.1 = t0 ++ [AudioOpen (Some st)]
           /\ r.2 = Return self p'
           /\ self = {| detected_callback := cbs;
                        interrupt_check := ic;
                        kill_received := false;
                        paused := false;
                        num_hotwords := nh;
                        ring_buffer := RingBuffer.new (NumChannels * SampleRate * 5);
                        stream_in := st |}
           /\ detector_ok self).
Proof.
  intros nh r. subst r. rewrite init_spec. fold nh. cbn zeta.
  destruct (Nat.ltb_spec nh (length (arg_list sensitivity h))) as [Hlt|Hle].
  { left. by split. }
  right.
  destruct (open_audio_fuel w) as (t & w' & [[st Ho]|Ho]); rewrite Ho.
  - right. split; [done|].
    destruct (open_audio_return _ _ _ _ _ _ Ho) as [t0 ->].
    eexists st, _, _, _. split; [|split; [reflexivity|split; [reflexivity|]]].
    + rewrite app_assoc. reflexivity.
    + split; [reflexivity|]. apply RingBufferFacts.new_wf.
  - left. split; [done|]. by eexists.
Qed.

(** X20.  When the sensitivity list that the constructor works on (see
    X19) has no more entries than there are hotwords, the sensitivities in
    effect are its entries, in their order, followed by as many 0.5 as are
    missing: one per hotword.  The constructor hands them to
    [SetSensitivity], comma-joined, right after [ApplyFrontend] and before
    PyAudio is started; only an engine without hotwords gets no
    [SetSensitivity] call.  The 0.5s are appended in place: a list object
    that was passed, or the shared default list, holds the sensitivities
    in effect when the constructor is done, however it ends. *)
Theorem constructor_pads_sensitivities (decoder_model : py_arg string)
    (resource : string) (sensitivity : sensitivity_arg) (audio_gain : float)
    (apply_frontend : bool) (cbs : py_arg (option callback))
    (ic : World -> bool * World) w (h : gmap loc (list float)) :
  let model_str := String.concat "," (as_list decoder_model) in
  let nh := NumHotwords resource model_str in
  let l := arg_list sensitivity h in
  let effective := l ++ replicate (nh - length l) half in
  length l <= nh ->
  length effective = nh
  /\ exists t o,
       __init__ decoder_model resource sensitivity audio_gain apply_frontend cbs ic
         (w, h) =
         ([SnowboyDetect resource model_str; SetAudioGain audio_gain;
           ApplyFrontend apply_frontend]
          ++ (if nh =? 0 then []
              else [SetSensitivity (String.concat "," (map str effective))])
          ++ [PyAudio] ++ t, o)
       /\ (forall r, sensitivity = ListObject r ->
             (final_state o).2 !!! r = effective)
       /\ (forall r, sensitivity <> ListObject r ->
             (final_state o).2 !! r = h !! r).
Proof.
  intros model_str nh l effective Hle.
  assert (Hlen : length effective = nh)
    by (unfold effective; rewrite length_app, length_replicate; lia).
  split; [exact Hlen|].
  assert (Hstore : forall r,
            (sensitivity = ListObject r ->
             padded_store nh (arg_var sensitivity) l h !!! r = effective)
            /\ (sensitivity <> ListObject r ->
                padded_store nh (arg_var sensitivity) l h !! r = h !! r)).
  { intros r. unfold padded_store. fold effective. split.
    - intros ->. simpl.
      destruct (Nat.eqb_spec (length l) nh) as [E|E].
      + unfold effective. replace (nh - length l) with 0 by lia.
        simpl. by rewrite app_nil_r.
      + apply lookup_total_insert_eq.
    - intros Hne. destruct (length l =? nh); [done|].
      destruct sensitivity as [x|r0]; simpl; [done|].
      apply lookup_insert_ne. congruence. }
  rewrite init_spec. fold model_str. fold nh. fold l. fold effective. cbn zeta.
  destruct (Nat.ltb_spec nh (length l)); [lia|].
  unfold init_prefix. rewrite Hlen.
  destruct (open_audio 6 0 w) as [t [st w'|e w'|w']];
    eexists t, _; (split; [by rewrite <- !app_assoc|]);
    split; intros r Hr; simpl; by apply Hstore.
Qed.

(** X21.  The constructor raises [SnowboyOpenAudioException] exactly when
    the sensitivity list it works on (see X19) has no more entries than
    there are hotwords and the first six calls of [audio.open] all fail;
    the world is then as the sixth call left it. *)
Theorem constructor_gives_up_after_six_failures (decoder_model : py_arg string)
    (resource : string) (sensitivity : sensitivity_arg) (audio_gain : float)
    (apply_frontend : bool) (cbs : py_arg (option callback))
    (ic : World -> bool * World) w (h : gmap loc (list float)) :
  let nh := NumHotwords resource (String.concat "," (as_list decoder_model)) in
  let r := __init__ decoder_model resource sensitivity audio_gain apply_frontend
             cbs ic (w, h) in
  ((exists p', r.2 = Raise SnowboyOpenAudioException p')
     <-> length (arg_list sensitivity h) <= nh
         /\ forall k, k < 6 -> open_result k w = None)
  /\ (length (arg_list sensitivity h) <= nh ->
      (forall k, k < 6 -> open_result k w = None) ->
      exists h', r.2 = Raise SnowboyOpenAudioException (world_after_opens 6 w, h')).
Proof.
  intros nh r. subst r. rewrite init_spec. fold nh. cbn zeta.
  destruct (Nat.ltb_spec nh (length (arg_list sensitivity h))) as [Hlt|Hle].
  { split; [|lia]. split; [by intros [p' ?]|lia]. }
  split.
  - split.
    + intros [p' Hr]. split; [done|].
      destruct (open_audio 6 0 w) as [t [st w0|e w0|w0]] eqn:Ho; simpl in Hr; try done.
      by destruct (open_audio_raise 6 0 w t e w0 eq_refl Ho) as [_ Hf].
    + intros [_ Hf]. rewrite (open_audio_all_fail w Hf). by eexists.
  - intros _ Hf. rewrite (open_audio_all_fail w Hf). by eexists.
Qed.


(** X23.  The default of [sensitivity] is one list for all calls.  A call
    that leaves [sensitivity] out and finds the default list empty leaves
    it filled with one 0.5 for each of its hotwords, however the call
    ends.  A later call that leaves [sensitivity] out and finds [n] entries
    in the default list raises [AssertionError] when its engine has fewer
    than [n] hotwords, although no sensitivity was given. *)
Theorem default_sensitivity_is_shared (decoder_model : py_arg string)
    (resource : string) (audio_gain : float) (apply_frontend : bool)
    (cbs : py_arg (option callback)) (ic : World -> bool * World) w
    (h : gmap loc (list float)) :
  let model_str := String.concat "," (as_list decoder_model) in
  let nh := NumHotwords resource model_str in
  let r := __init__ decoder_model resource omitted audio_gain apply_frontend
             cbs ic (w, h) in
  (h !!! default_sensitivity = [] ->
   (final_state r.2).2 !!! default_sensitivity = replicate nh half)
  /\ (nh < length (h !!! default_sensitivity) ->
      r = ([SnowboyDetect resource model_str; SetAudioGain audio_gain;
            ApplyFrontend apply_frontend], Raise AssertionError (w, h))).
Proof.
  intros model_str nh r. subst r. rewrite init_spec. fold model_str. fold nh.
  cbn zeta. change (arg_list omitted h) with (h !!! default_sensitivity).
  split.
  - intros He. rewrite He.
    change (nh <? length (@nil float)) with false. cbv iota.
    assert (Hs : padded_store nh (arg_var omitted) [] h !!! default_sensitivity
                 = replicate nh half).
    { unfold padded_store. change (length (@nil float)) with 0.
      destruct (Nat.eqb_spec 0 nh) as [<-|E]; [by rewrite He|].
      rewrite Nat.sub_0_r. apply lookup_total_insert_eq. }
    by destruct (open_audio 6 0 w) as [t [st w'|e w'|w']].
  - intros Hlt. apply Nat.ltb_lt in Hlt. by rewrite Hlt.
Qed.

End ConstructorLaws.

(** * The further properties on the scripted environment *)

Module MoreScenarios.
Import Scripted.
#[local] Existing Instance collaborators.
#[local] Open Scope string_scope.

Lemma audio_callback_contract_witness :
  pause (quiet, detector 1 (Scalar None))
  = ([], Return tt (quiet, with_ring_buffer (with_paused (detector 1 (Scalar None)) true)
                             (RingBuffer.pause (ring_buffer (detector 1 (Scalar None))))))
  /\ audio_callback [x01; x02]
       (quiet, with_ring_buffer (with_paused (detector 1 (Scalar None)) true)
                 (RingBuffer.pause (ring_buffer (detector 1 (Scalar None)))))
     = ([], Return ([x00; x00], paContinue)
              (quiet, with_ring_buffer (with_paused (detector 1 (Scalar None)) true)
                        (RingBuffer.pause (ring_buffer (detector 1 (Scalar None)))))).
Proof.
  split; [reflexivity|].
  destruct (@audio_callback_contract collaborators [x01; x02] quiet
              (detector 1 (Scalar None))) as [_ Hp].
  exact (Hp _ _ eq_refl).
Defined.

Lemma pause_flags_stay_in_sync_witness :
  detector_ok (loaded 2 (Scalar None) [x01])
  /\ detector_ok
       (final_state (run 3 (listening [false; false; true] [1%Z],
                            loaded 2 (Scalar None) [x01])).2).2.
Proof.
  assert (Hok : detector_ok (loaded 2 (Scalar None) [x01])).
  { split; [reflexivity|]. unfold RingBuffer.wf. simpl. lia. }
  split; [exact Hok|].
  destruct (@pause_flags_stay_in_sync collaborators
              (listening [false; false; true] [1%Z], loaded 2 (Scalar None) [x01]))
    as (_ & _ & Hinv).
  destruct (Hinv Hok) as [_ Hrun]. exact (Hrun 3).
Defined.

Lemma normalize_callbacks_idempotent_witness :
  normalize_callbacks (quiet, detector 3 (Scalar (Some 7)))
  = ([], Return tt (quiet, detector 3 (PyList [Some 7; Some 7; Some 7])))
  /\ normalize_callbacks (listening [true] [], detector 3 (PyList [Some 7; Some 7; Some 7]))
     = ([], Return tt (listening [true] [], detector 3 (PyList [Some 7; Some 7; Some 7]))).
Proof.
  split; [reflexivity|].
  apply (@normalize_callbacks_idempotent collaborators quiet (listening [true] [])
           (detector 3 (Scalar (Some 7)))).
  reflexivity.
Defined.

Lemma round_with_empty_buffer_sleeps_witness :
  paused (detector 1 (Scalar (Some 7))) = false
  /\ interrupt_check (detector 1 (Scalar (Some 7))) (listening [false] [1%Z])
     = (false, listening [] [1%Z])
  /\ RingBuffer._buf (ring_buffer (detector 1 (Scalar (Some 7)))) = []
  /\ loop_body (listening [false] [1%Z], detector 1 (Scalar (Some 7)))
     = ([InterruptCheck false; RingBufferGet []; SleepTime],
        Return Continue (listening [] [1%Z], detector 1 (Scalar (Some 7)))).
Proof.
  split; [reflexivity|]. split; [reflexivity|]. split; [reflexivity|].
  apply (@round_with_empty_buffer_sleeps collaborators (listening [false] [1%Z])
           (listening [] [1%Z]) (detector 1 (Scalar (Some 7)))); reflexivity.
Defined.

Lemma engine_error_is_not_fatal_witness :
  (-1 <= 0)%Z
  /\ loop_body (listening [false] [(-1)%Z], loaded 1 (PyList [Some 7]) [x01; x02])
     = ([InterruptCheck false; RingBufferGet [x01; x02]; Detection [x01; x02] (-1)],
        Return Continue (listening [] [], detector 1 (PyList [Some 7]))).
Proof.
  split; [lia|].
  apply (@engine_error_is_not_fatal collaborators (listening [false] [(-1)%Z])
           (listening [] [(-1)%Z]) (listening [] [])
           (loaded 1 (PyList [Some 7]) [x01; x02]) [x01; x02] (-1)%Z);
    [reflexivity|reflexivity|reflexivity|discriminate|reflexivity|lia].
Defined.

Lemma answer_beyond_callbacks_raises_IndexError_witness :
  Z.lt (Z.of_nat (length (as_list (detected_callback
                                    (loaded 2 (PyList [Some 1; Some 2]) [x01])))))
       3%Z
  /\ loop_body (listening [false] [3%Z], loaded 2 (PyList [Some 1; Some 2]) [x01])
     = ([InterruptCheck false; RingBufferGet [x01]; Detection [x01] 3],
        Raise IndexError (listening [] [], detector 2 (PyList [Some 1; Some 2]))).
Proof.
  split; [simpl; lia|].
  apply (@answer_beyond_callbacks_raises_IndexError collaborators
           (listening [false] [3%Z]) (listening [] [3%Z]) (listening [] [])
           (loaded 2 (PyList [Some 1; Some 2]) [x01]) [x01] 3%Z);
    [reflexivity|reflexivity|reflexivity|discriminate|reflexivity|simpl; lia].
Defined.

Lemma kill_received_stops_the_loop_witness :
  kill_received (killed 1 (PyList [Some 7])) = true
  /\ exists t0 s0,
       detect_loop 5 (listening [true] [1%Z], killed 1 (PyList [Some 7])) = (t0, Return tt s0)
       /\ others (listening [true] [1%Z], killed 1 (PyList [Some 7])) = (t0, Return tt s0)
       /\ Forall (fun e => is_loop_event e = false) t0.
Proof.
  split; [reflexivity|].
  apply (@kill_received_stops_the_loop collaborators 4
           (listening [true] [1%Z], killed 1 (PyList [Some 7]))).
  reflexivity.
Defined.

Lemma paused_loop_only_sleeps_witness :
  schedule (listening [true] []) = ([], listening [true] [])
  /\ detect_loop 4 (listening [true] [], with_paused (detector 1 (Scalar None)) true)
     = ([SleepTime; SleepTime; SleepTime; SleepTime],
        Timeout (listening [true] [], with_paused (detector 1 (Scalar None)) true)).
Proof.
  split; [reflexivity|].
  apply (@paused_loop_only_sleeps collaborators 4 (listening [true] [])
           (with_paused (detector 1 (Scalar None)) true)); reflexivity.
Defined.

Lemma callbacks_stay_in_order_witness :
  (interrupt_check (loaded 2 (Scalar (Some 7)) [x01]) (listening [false; false; true] [2%Z])).1
  = false
  /\ detected_callback
       (final_state (run 3 (listening [false; false; true] [2%Z],
                            loaded 2 (Scalar (Some 7)) [x01])).2).2
     = PyList [Some 7; Some 7].
Proof.
  split; [reflexivity|].
  apply (@callbacks_stay_in_order collaborators 3 (listening [false; false; true] [2%Z])
           (loaded 2 (Scalar (Some 7)) [x01])); reflexivity.
Defined.

Lemma constructor_pads_sensitivities_witness :
  length (arg_list (ListObject 1) {[1 := ["0.7"; "0.4"]]})
    <= NumHotwords "common.res" "a,b,c"
  /\ exists t o,
       __init__ (PyList ["a"; "b"; "c"]) "common.res" (ListObject 1) "1" false
         (Scalar None) next_interrupt (quiet, {[1 := ["0.7"; "0.4"]]})
       = (([SnowboyDetect "common.res" "a,b,c"; SetAudioGain "1"; ApplyFrontend false;
            SetSensitivity "0.7,0.4,0.5"; PyAudio] ++ t)%list, o)
       /\ (final_state o).2 !!! 1 = ["0.7"; "0.4"; "0.5"].
Proof.
  split; [vm_compute; lia|].
  destruct (@constructor_pads_sensitivities collaborators (PyList ["a"; "b"; "c"])
              "common.res" (ListObject 1) "1" false (Scalar None)
              next_interrupt quiet {[1 := ["0.7"; "0.4"]]})
    as (_ & t & o & Hinit & Hobj & _); [vm_compute; lia|].
  exists t, o. split; [exact Hinit|]. exact (Hobj 1 eq_refl).
Defined.

Lemma constructor_gives_up_after_six_failures_witness :
  length (arg_list (@NotAList collaborators "0.7") ∅) <= NumHotwords "common.res" "a"
  /\ exists h',
       (__init__ (Scalar "a") "common.res" (@NotAList collaborators "0.7") "1" false
          (Scalar None) next_interrupt
          (opening [None; None; None; None; None; None; Some 3], ∅)).2
       = Raise SnowboyOpenAudioException (opening [Some 3], h').
Proof.
  split; [simpl; lia|].
  apply (@constructor_gives_up_after_six_failures collaborators (Scalar "a")
           "common.res" (@NotAList collaborators "0.7") "1" false (Scalar None)
           next_interrupt
           (opening [None; None; None; None; None; None; Some 3]) ∅).
  - simpl. lia.
  - intros k Hk. do 6 (destruct k as [|k]; [reflexivity|]). lia.
Defined.

Lemma default_sensitivity_is_shared_witness :
  (∅ : gmap loc (list string)) !!! default_sensitivity = []
  /\ (final_state
        (__init__ (PyList ["a"; "b"]) "common.res" omitted "1" false (Scalar None)
           next_interrupt (quiet, ∅)).2).2 !!! default_sensitivity
     = ["0.5"; "0.5"]
  /\ NumHotwords "common.res" "a"
       < length (({[default_sensitivity := ["0.5"; "0.5"]]} : gmap loc (list string))
                   !!! default_sensitivity)
  /\ __init__ (Scalar "a") "common.res" omitted "1" false (Scalar None)
       next_interrupt (quiet, {[default_sensitivity := ["0.5"; "0.5"]]})
     = ([SnowboyDetect "common.res" "a"; SetAudioGain "1"; ApplyFrontend false],
        Raise AssertionError (quiet, {[default_sensitivity := ["0.5"; "0.5"]]})).
Proof.
  split; [reflexivity|]. split; [|split; [vm_compute; lia|]].
  - apply (@default_sensitivity_is_shared collaborators (PyList ["a"; "b"])
             "common.res" "1" false (Scalar None) next_interrupt quiet ∅).
    reflexivity.
  - apply (@default_sensitivity_is_shared collaborators (Scalar "a")
             "common.res" "1" false (Scalar None) next_interrupt quiet
             {[default_sensitivity := ["0.5"; "0.5"]]}).
    vm_compute. lia.
Defined.

Lemma match_invokes_callback_at_index_witness :
  (interrupt_check (loaded 2 (Scalar (Some 7)) [x01])
     (listening [false; false; true] [2%Z])).1 = false
  /\ length (broadcast_callbacks 2 (as_list (detected_callback
                                              (loaded 2 (Scalar (Some 7)) [x01]))))
     = 2
  /\ run 2 (listening [false; false; true] [2%Z], loaded 2 (Scalar (Some 7)) [x01])
     = ([InterruptCheck false; InterruptCheck false; RingBufferGet [x01];
         Detection [x01] 2; Callback 7; InterruptCheck true],
        Return tt (listening [] [], detector 2 (PyList [Some 7; Some 7])))
  /\ exists c,
       [Some 7; Some 7] !! Z.to_nat (2 - 1) = Some c
       /\ detect_loop 2 (listening [false; true] [2%Z],
                         loaded 2 (PyList [Some 7; Some 7]) [x01])
          = ([InterruptCheck false; RingBufferGet [x01]; Detection [x01] 2;
              Callback 7; InterruptCheck true],
             Return tt (listening [] [], detector 2 (PyList [Some 7; Some 7]))).
Proof.
  destruct (@match_invokes_callback_at_index collaborators
              (listening [false; false; true] [2%Z])
              (loaded 2 (Scalar (Some 7)) [x01])) as (Hrun & _ & _ & Hround).
  split; [reflexivity|]. split; [reflexivity|]. split.
  - refine (eq_trans (Hrun 2 eq_refl eq_refl) _). reflexivity.
  - destruct (Hround 1 (listening [false; true] [2%Z],
                        loaded 2 (PyList [Some 7; Some 7]) [x01])
                [] (listening [false; true] [2%Z])
                (loaded 2 (PyList [Some 7; Some 7]) [x01])
                (listening [true] [2%Z]) (listening [true] []) [x01] 2%Z
                eq_refl eq_refl eq_refl eq_refl eq_refl eq_refl
                ltac:(discriminate) eq_refl ltac:(simpl; lia))
      as (c & Hc & _ & Hloop).
    exists c. split; [exact Hc|].
    refine (eq_trans Hloop _). injection Hc as <-. reflexivity.
Defined.

End MoreScenarios.
